(** * Bank-Statement-Parser: the reconciliation pipeline of
      [process_bank_statement.py], embedded and verified.

    The development follows the source file top-down.

    - [Py] models the part of the Python runtime the source relies on:
      the JSON-shaped value universe a producer can hand to the pipeline,
      truthiness and [or], [dict.get], [str()], [float()], [int()],
      [round], the format specifications used in f-strings, and the
      exceptions these operations raise.
    - [Re] is a backtracking matcher with the semantics of Python's [re] on
      the constructs the source patterns use (classes, greedy bounded and
      unbounded repetition of a class, concatenation, ordered alternation,
      capturing groups), with [search], [finditer], [findall] and [sub].
    - Then come the source functions, under their own names.

    Conventions.  A Python [str] is a [string] holding the UTF-8 bytes of
    the text; the classes [\d] and [\s], [str.strip] and [str.lower] are
    given on the ASCII range and leave other bytes alone (the currency
    glyphs of [CURRENCY_PATTERN] are matched as their UTF-8 sequences).  A
    Python [float] is a binary64 number, [spec_float] with precision 53 and
    [emax] 1024, on which the Standard Library defines the IEEE operations.
    Fallible code returns [exc]; the one object the pipeline mutates, the
    [Quality] report, is passed in and out explicitly. *)

From Stdlib Require Import ZArith NArith List String Ascii Bool Lia.
From Stdlib Require Import DecimalString Permutation Sorted.
From Stdlib Require Import Floats.SpecFloat.
Import ListNotations.

Local Open Scope list_scope.

Set Warnings "-register-all".

(* ================================================================== *)
(** * The Python runtime *)
(* ================================================================== *)

Module Py.

Local Open Scope string_scope.

(** ** Exceptions *)

Inductive exn : Type :=
| TypeError
| ValueError
| AttributeError
| KeyError
| IndexError
| FileNotFoundError (path : string).

Inductive exc (A : Type) : Type :=
| Ok (a : A)
| Raise (e : exn).

Arguments Ok {A} a.
Arguments Raise {A} e.

Definition bind {A B : Type} (c : exc A) (k : A -> exc B) : exc B :=
  match c with
  | Ok a => k a
  | Raise e => Raise e
  end.

(** [try: c  except Exception: h] *)
Definition try_except {A : Type} (c : exc A) (h : exc A) : exc A :=
  match c with
  | Ok a => Ok a
  | Raise _ => h
  end.

Definition returns {A : Type} (c : exc A) : Prop := exists a, c = Ok a.

(** ** Characters and strings *)

Definition chars (s : string) : list ascii := list_ascii_of_string s.
Definition text (cs : list ascii) : string := string_of_list_ascii cs.

Definition code (c : ascii) : N := N_of_ascii c.

Definition is_digit (c : ascii) : bool :=
  (48 <=? code c)%N && (code c <=? 57)%N.

(** ASCII whitespace as [str.isspace] and [\s] see it: TAB..CR, FS..US
    and the space. *)
Definition is_space (c : ascii) : bool :=
  ((9 <=? code c)%N && (code c <=? 13)%N)
  || ((28 <=? code c)%N && (code c <=? 32)%N).

Definition lower_char (c : ascii) : ascii :=
  if (65 <=? code c)%N && (code c <=? 90)%N
  then ascii_of_N (code c + 32) else c.

(** [s.lower()] *)
Definition lower (s : string) : string := text (map lower_char (chars s)).

Fixpoint lstrip_chars (cs : list ascii) : list ascii :=
  match cs with
  | c :: r => if is_space c then lstrip_chars r else cs
  | [] => []
  end.

(** [s.strip()] *)
Definition strip (s : string) : string :=
  text (rev (lstrip_chars (rev (lstrip_chars (chars s))))).

Fixpoint starts_with (p cs : list ascii) : bool :=
  match p, cs with
  | [], _ => true
  | a :: p', c :: r => Ascii.eqb a c && starts_with p' r
  | _ :: _, [] => false
  end.

Fixpoint contains_chars (p cs : list ascii) : bool :=
  starts_with p cs ||
  match cs with
  | [] => false
  | _ :: r => contains_chars p r
  end.

(** [sub in s] *)
Definition contains (sub s : string) : bool :=
  contains_chars (chars sub) (chars s).

(** [s.replace(c, "")] for a one-character [c] *)
Definition remove_char (c : ascii) (s : string) : string :=
  text (filter (fun x => negb (Ascii.eqb x c)) (chars s)).

Fixpoint join (sep : string) (l : list string) : string :=
  match l with
  | [] => ""
  | [x] => x
  | x :: r => x ++ sep ++ join sep r
  end.

Fixpoint repeat_char (c : ascii) (n : nat) : string :=
  match n with
  | O => ""
  | S k => String c (repeat_char c k)
  end.

(** ** Integers and their decimal text *)

Definition str_of_Z (z : Z) : string := NilZero.string_of_int (Z.to_int z).

Definition digit_val (c : ascii) : Z := Z.of_N (code c) - 48.

Definition Z_of_digits (cs : list ascii) : Z :=
  fold_left (fun acc c => 10 * acc + digit_val c)%Z cs 0%Z.

(** [int(s)], on an optional minus sign followed by ASCII digits. *)
Definition int_of_str (s : string) : exc Z :=
  let cs := chars s in
  let '(neg, body) :=
    match cs with
    | "-"%char :: r => (true, r)
    | _ => (false, cs)
    end in
  match body with
  | [] => Raise ValueError
  | _ => if forallb is_digit body
         then Ok (if neg then (- Z_of_digits body)%Z else Z_of_digits body)
         else Raise ValueError
  end.

(** [format(n, "0<w>d")]: sign first, then zeros up to the width. *)
Definition format_0d (w : nat) (n : Z) : string :=
  let body := str_of_Z (Z.abs n) in
  let sign := if (n <? 0)%Z then "-" else "" in
  sign ++ repeat_char "0" (w - String.length sign - String.length body) ++ body.

(** ** Floats *)

Definition prec : Z := 53.
Definition emax : Z := 1024.

Definition float : Type := spec_float.

Definition feqb : float -> float -> bool := SFeqb.
Definition fltb : float -> float -> bool := SFltb.
Definition fadd : float -> float -> float := SFadd prec emax.
Definition fdiv : float -> float -> float := SFdiv prec emax.

Definition is_nan (f : float) : bool :=
  match f with S754_nan => true | _ => false end.


Definition float_of_Z (z : Z) : float := binary_normalize prec emax z 0 false.

(** The binary64 number nearest to [digits / 10^scale] (ties to even):
    the correctly rounded quotient of the two integers. *)
Definition float_of_decimal (neg : bool) (digits : Z) (scale : nat) : float :=
  match digits with
  | Zpos m =>
      SFdiv prec emax (S754_finite neg m 0)
            (S754_finite false (Z.to_pos (10 ^ Z.of_nat scale)) 0)
  | _ => S754_zero neg
  end.

(** The binary64 number nearest to [digits * 10^e10]. *)
Definition float_of_sci (neg : bool) (digits : Z) (e10 : Z) : float :=
  if (0 <=? e10)%Z
  then float_of_decimal neg (digits * 10 ^ e10) 0
  else float_of_decimal neg digits (Z.to_nat (- e10)).

Fixpoint span_digits (cs : list ascii) : list ascii * list ascii :=
  match cs with
  | c :: r =>
      if is_digit c
      then let '(d, rest) := span_digits r in (c :: d, rest)
      else ([], cs)
  | [] => ([], [])
  end.

(** [float(s)] as [_to_float] calls it: on a string of digits, [.] and
    [-] the accepted texts are an optional minus sign, then digits with an
    optional point, at least one digit in all; anything else is a
    [ValueError].  The value is correctly rounded; too large a number
    becomes an infinity, too small a zero. *)
Definition float_of_str (s : string) : exc float :=
  let cs := chars s in
  let '(neg, body) :=
    match cs with
    | "-"%char :: r => (true, r)
    | _ => (false, cs)
    end in
  let '(ip, rest) := span_digits body in
  match rest with
  | [] =>
      match ip with
      | [] => Raise ValueError
      | _ => Ok (float_of_decimal neg (Z_of_digits ip) 0)
      end
  | "."%char :: fp =>
      if forallb is_digit fp && negb (Nat.eqb (List.length ip + List.length fp) 0)
      then Ok (float_of_decimal neg (Z_of_digits (ip ++ fp)%list) (List.length fp))
      else Raise ValueError
  | _ => Raise ValueError
  end.

(** *** [repr] of a float

    [repr] prints the shortest decimal text that reads back as the same
    float and, among the texts of that length, the one nearest to it (the
    even digit on a tie).  [shortest_digits] looks for it precision by
    precision: at [p] significant digits only the two decimals around the
    value can read back, and they are tried nearest first. *)

Definition ratio_of_float (m : positive) (e : Z) : Z * Z :=
  if (0 <=? e)%Z then (Zpos m * 2 ^ e, 1)%Z else (Zpos m, 2 ^ (- e))%Z.

Fixpoint small_exponent (fuel : nat) (num den : Z) (j : Z) : Z :=
  match fuel with
  | O => j
  | S k => if (den <=? num * 10 ^ j)%Z then j
           else small_exponent k num den (j + 1)
  end.

(** The [k] with [10^k <= num/den < 10^(k+1)]. *)
Definition decimal_exponent (num den : Z) : Z :=
  if (den <=? num)%Z
  then Z.of_nat (String.length (str_of_Z (num / den))) - 1
  else - small_exponent 400 num den 1.

Definition candidates (num den : Z) (t : Z) : list Z :=
  let '(n, d) := if (0 <=? t)%Z then (num, den * 10 ^ t)%Z
                 else (num * 10 ^ (- t), den)%Z in
  let lo := (n / d)%Z in
  let rem := (n mod d)%Z in
  if (rem =? 0)%Z then [lo]
  else match (2 * rem ?= d)%Z with
       | Lt => [lo; lo + 1]
       | Gt => [lo + 1; lo]
       | Eq => if Z.even lo then [lo; lo + 1] else [lo + 1; lo]
       end%Z.

Fixpoint shortest_digits (fuel : nat) (x : float) (num den k : Z) (p : Z)
  : Z * Z :=
  let t := (k - p + 1)%Z in
  let cands := candidates num den t in
  match find (fun c => feqb (float_of_sci false c t) x) cands with
  | Some c => (c, t)
  | None =>
      match fuel with
      | O => (hd 0%Z cands, t)
      | S f => shortest_digits f x num den k (p + 1)
      end
  end.

Fixpoint strip_zeros (fuel : nat) (c t : Z) : Z * Z :=
  match fuel with
  | O => (c, t)
  | S f => if (c mod 10 =? 0)%Z then strip_zeros f (c / 10) (t + 1)
           else (c, t)
  end.

(** Digits and the position of the decimal point: the value is
    [0.d1d2...dn * 10^decpt]. *)
Definition float_digits (m : positive) (e : Z) : string * Z :=
  let x := binary_normalize prec emax (Zpos m) e false in
  let '(num, den) := ratio_of_float m e in
  let k := decimal_exponent num den in
  let '(c, t) := shortest_digits 16 x num den k 1 in
  let '(c, t) := strip_zeros 17 c t in
  let ds := str_of_Z c in
  (ds, Z.of_nat (String.length ds) + t)%Z.

Definition format_exponent (e : Z) : string :=
  (if (e <? 0)%Z then "-" else "+") ++ format_0d 2 (Z.abs e).

Definition format_repr (ds : string) (decpt : Z) : string :=
  let n := Z.of_nat (String.length ds) in
  if ((decpt <=? -4) || (16 <? decpt))%Z then
    match ds with
    | String d rest =>
        String d (match rest with EmptyString => "" | _ => "." ++ rest end)
        ++ "e" ++ format_exponent (decpt - 1)
    | EmptyString => ""
    end
  else if (decpt <=? 0)%Z then
    "0." ++ repeat_char "0" (Z.to_nat (- decpt)) ++ ds
  else if (decpt <? n)%Z then
    substring 0 (Z.to_nat decpt) ds ++ "."
    ++ substring (Z.to_nat decpt) (Z.to_nat (n - decpt)) ds
  else
    ds ++ repeat_char "0" (Z.to_nat (decpt - n)) ++ ".0".

(** [repr(x)], which is also [str(x)] *)
Definition float_repr (x : float) : string :=
  match x with
  | S754_zero s => if s then "-0.0" else "0.0"
  | S754_infinity s => if s then "-inf" else "inf"
  | S754_nan => "nan"
  | S754_finite s m e =>
      let '(ds, decpt) := float_digits m e in
      (if s then "-" else "") ++ format_repr ds decpt
  end.

(** *** Rounding and fixed-point formatting *)

(** [m * 2^e * 10^nd] rounded to an integer, ties to even. *)
Definition scaled_round (m : positive) (e : Z) (nd : nat) : Z :=
  let '(num, den) := ratio_of_float m e in
  let n := (num * 10 ^ Z.of_nat nd)%Z in
  let q := (n / den)%Z in
  match (2 * (n mod den) ?= den)%Z with
  | Lt => q
  | Gt => (q + 1)%Z
  | Eq => if Z.even q then q else (q + 1)%Z
  end.

(** [round(x, nd)]: the float nearest to the decimal rounding of [x];
    infinities and NaN round to themselves. *)
Definition round_nd (nd : nat) (x : float) : float :=
  match x with
  | S754_finite s m e => float_of_decimal s (scaled_round m e nd) nd
  | _ => x
  end.

Fixpoint group3 (rev_digits : list ascii) : list ascii :=
  match rev_digits with
  | a :: b :: c :: ((_ :: _) as r) => a :: b :: c :: ","%char :: group3 r
  | _ => rev_digits
  end.

(** Thousands separators for a digit string. *)
Definition with_commas (ds : string) : string :=
  text (rev (group3 (rev (chars ds)))).

(** [format(x, ",.2f")] *)
Definition format_comma_2f (x : float) : string :=
  match x with
  | S754_nan => "nan"
  | S754_infinity s => if s then "-inf" else "inf"
  | S754_zero s => if s then "-0.00" else "0.00"
  | S754_finite s m e =>
      let q := scaled_round m e 2 in
      (if s then "-" else "")
      ++ with_commas (str_of_Z (q / 100)) ++ "." ++ format_0d 2 (q mod 100)
  end.

(** ** Values

    What [json.loads] can return, which is also what the pipeline builds
    itself: [None], booleans, integers, floats, strings, lists, and
    dictionaries with string keys, kept in insertion order. *)

Inductive pyval : Type :=
| PNone
| PBool (b : bool)
| PInt (z : Z)
| PFloat (x : float)
| PStr (s : string)
| PList (l : list pyval)
| PDict (d : list (string * pyval)).

(** [bool(v)] *)
Definition truthy (v : pyval) : bool :=
  match v with
  | PNone => false
  | PBool b => b
  | PInt z => negb (z =? 0)%Z
  | PFloat x => match x with S754_zero _ => false | _ => true end
  | PStr s => negb (String.eqb s "")
  | PList l => match l with [] => false | _ => true end
  | PDict d => match d with [] => false | _ => true end
  end.

(** [a or b] *)
Definition py_or (a b : pyval) : pyval := if truthy a then a else b.

Definition is_dict (v : pyval) : bool :=
  match v with PDict _ => true | _ => false end.

Definition is_list (v : pyval) : bool :=
  match v with PList _ => true | _ => false end.

Fixpoint lookup (k : string) (d : list (string * pyval)) : option pyval :=
  match d with
  | [] => None
  | (k', v) :: r => if String.eqb k k' then Some v else lookup k r
  end.

(** [d.get(k)] on a dictionary: the value, or [None]. *)
Definition dict_get (d : list (string * pyval)) (k : string) : pyval :=
  match lookup k d with
  | Some v => v
  | None => PNone
  end.

(** [v.get(k)]: only a dictionary has the method. *)
Definition py_get (v : pyval) (k : string) : exc pyval :=
  match v with
  | PDict d => Ok (dict_get d k)
  | _ => Raise AttributeError
  end.

(** [k in v], for a string [k] *)
Definition py_in (k : string) (v : pyval) : exc bool :=
  match v with
  | PDict d => Ok (match lookup k d with Some _ => true | None => false end)
  | PList l =>
      Ok (existsb (fun x => match x with
                            | PStr s => String.eqb s k
                            | _ => false
                            end) l)
  | PStr s => Ok (contains k s)
  | _ => Raise TypeError
  end.

(** [v[k]], for a string [k] *)
Definition py_item (v : pyval) (k : string) : exc pyval :=
  match v with
  | PDict d => match lookup k d with
               | Some x => Ok x
               | None => Raise KeyError
               end
  | _ => Raise TypeError
  end.

(** [v[0]] *)
Definition py_first (v : pyval) : exc pyval :=
  match v with
  | PList l => match l with
               | x :: _ => Ok x
               | [] => Raise IndexError
               end
  | PStr s => match s with
              | String c _ => Ok (PStr (String c ""))
              | EmptyString => Raise IndexError
              end
  | PDict _ => Raise KeyError
  | _ => Raise TypeError
  end.

(** [for x in v]: the elements of a list, the keys of a dictionary, the
    characters of a string; nothing else here is iterable. *)
Definition py_iter (v : pyval) : exc (list pyval) :=
  match v with
  | PList l => Ok l
  | PDict d => Ok (map (fun kv => PStr (fst kv)) d)
  | PStr s => Ok (map (fun c => PStr (String c "")) (chars s))
  | _ => Raise TypeError
  end.

(** *** [repr] and [str] *)

Definition squote : ascii := "039"%char.
Definition dquote : ascii := "034"%char.
Definition backslash : ascii := "092"%char.

Definition hex_digit (n : N) : ascii :=
  if (n <? 10)%N then ascii_of_N (48 + n) else ascii_of_N (87 + n).

Definition escape_char (q c : ascii) : list ascii :=
  if Ascii.eqb c backslash then [backslash; backslash]
  else if Ascii.eqb c q then [backslash; q]
  else if Ascii.eqb c "009"%char then [backslash; "t"%char]
  else if Ascii.eqb c "010"%char then [backslash; "n"%char]
  else if Ascii.eqb c "013"%char then [backslash; "r"%char]
  else if (code c <? 32)%N || (code c =? 127)%N
       then [backslash; "x"%char;
             hex_digit (code c / 16); hex_digit (code c mod 16)]
  else [c].

(** [repr(s)]: single quotes unless the text has a single quote and no
    double quote; control characters escaped. *)
Definition str_repr (s : string) : string :=
  let cs := chars s in
  let q := if existsb (Ascii.eqb squote) cs
              && negb (existsb (Ascii.eqb dquote) cs)
           then dquote else squote in
  text (q :: flat_map (escape_char q) cs ++ [q])%list.

Fixpoint py_repr (v : pyval) : string :=
  match v with
  | PNone => "None"
  | PBool b => if b then "True" else "False"
  | PInt z => str_of_Z z
  | PFloat x => float_repr x
  | PStr s => str_repr s
  | PList l => "[" ++ join ", " (map py_repr l) ++ "]"
  | PDict d =>
      "{" ++ join ", "
               (map (fun kv => let '(k, x) := kv in
                               str_repr k ++ ": " ++ py_repr x) d) ++ "}"
  end.

(** [str(v)] *)
Definition py_str (v : pyval) : string :=
  match v with
  | PStr s => s
  | _ => py_repr v
  end.

End Py.

(* ================================================================== *)
(** * Regular expressions *)
(* ================================================================== *)

Module Re.

Import Py.

(** The constructs of the source's patterns.  Every repetition there is
    over a single character class and greedy. *)
Inductive regex : Type :=
| Cls (p : ascii -> bool)
| Rep (p : ascii -> bool) (lo : nat) (hi : option nat)
| Seq (r1 r2 : regex)
| Alt (r1 r2 : regex)
| Grp (n : nat) (r : regex).

(** Group number and text, the latest capture first. *)
Definition groups : Type := list (nat * list ascii).

Definition consumed (s s' : list ascii) : list ascii :=
  firstn (List.length s - List.length s') s.

Definition more (hi : option nat) : bool :=
  match hi with Some O => false | _ => true end.

(** Greedy [{lo,hi}]: take a character when allowed, give it back when the
    rest of the pattern fails. *)
Fixpoint rep {A : Type} (p : ascii -> bool) (lo : nat) (hi : option nat)
  (s : list ascii) (k : list ascii -> option A) {struct s} : option A :=
  let stop := match lo with O => k s | S _ => None end in
  match s with
  | c :: s' =>
      if p c && more hi
      then match rep p (pred lo) (option_map pred hi) s' k with
           | Some x => Some x
           | None => stop
           end
      else stop
  | [] => stop
  end.

(** The backtracking matcher, in continuation-passing style: [k] is the
    rest of the pattern; a [None] from it makes the matcher try its next
    choice. *)
Fixpoint mt {A : Type} (r : regex) (s : list ascii) (g : groups)
  (k : list ascii -> groups -> option A) : option A :=
  match r with
  | Cls p =>
      match s with
      | c :: s' => if p c then k s' g else None
      | [] => None
      end
  | Rep p lo hi => rep p lo hi s (fun s' => k s' g)
  | Seq r1 r2 => mt r1 s g (fun s1 g1 => mt r2 s1 g1 k)
  | Alt r1 r2 =>
      match mt r1 s g k with
      | Some x => Some x
      | None => mt r2 s g k
      end
  | Grp n r => mt r s g (fun s' g1 => k s' ((n, consumed s s') :: g1))
  end.

(** A match object: [m.start()], [m.group(0)] and the groups. *)
Record rmatch : Type := mk_match {
  m_start : nat;
  m_text : list ascii;
  m_groups : groups
}.

(** [pattern.match] at the head of [s], which starts at offset [pos]. *)
Definition match_at (r : regex) (s : list ascii) (pos : nat) : option rmatch :=
  mt r s [] (fun s' g => Some (mk_match pos (consumed s s') g)).

Fixpoint search_from (r : regex) (s : list ascii) (pos : nat) : option rmatch :=
  match match_at r s pos with
  | Some m => Some m
  | None =>
      match s with
      | [] => None
      | _ :: s' => search_from r s' (S pos)
      end
  end.

(** [pattern.search(s)]: the leftmost match. *)
Definition search (r : regex) (s : string) : option rmatch :=
  search_from r (chars s) 0.

(** [skip] characters of the previous match are still to be passed.  None
    of the source's patterns matches the empty string. *)
Fixpoint finditer_from (r : regex) (s : list ascii) (pos skip : nat)
  {struct s} : list rmatch :=
  match skip with
  | S n =>
      match s with
      | [] => []
      | _ :: s' => finditer_from r s' (S pos) n
      end
  | O =>
      match match_at r s pos with
      | Some m =>
          m :: match s with
               | [] => []
               | _ :: s' =>
                   finditer_from r s' (S pos) (pred (List.length (m_text m)))
               end
      | None =>
          match s with
          | [] => []
          | _ :: s' => finditer_from r s' (S pos) 0
          end
      end
  end.

(** [pattern.finditer(s)]: the matches left to right, not overlapping. *)
Definition finditer (r : regex) (s : string) : list rmatch :=
  finditer_from r (chars s) 0 0.

(** [re.findall] for a pattern without groups *)
Definition findall (r : regex) (s : string) : list string :=
  map (fun m => text (m_text m)) (finditer r s).

Fixpoint delete_matches (r : regex) (s : list ascii) (skip : nat)
  {struct s} : list ascii :=
  match s with
  | [] => []
  | c :: s' =>
      match skip with
      | S n => delete_matches r s' n
      | O =>
          match match_at r s 0 with
          | Some m =>
              match List.length (m_text m) with
              | O => c :: delete_matches r s' 0
              | S n => delete_matches r s' n
              end
          | None => c :: delete_matches r s' 0
          end
      end
  end.

(** [pattern.sub("", s)] *)
Definition sub_empty (r : regex) (s : string) : string :=
  text (delete_matches r (chars s) 0).

Fixpoint group_chars (n : nat) (g : groups) : option (list ascii) :=
  match g with
  | [] => None
  | (i, w) :: rest => if Nat.eqb i n then Some w else group_chars n rest
  end.

(** [m.group(n)]: [None] when the group took no part in the match. *)
Definition group (m : rmatch) (n : nat) : option string :=
  option_map text (group_chars n (m_groups m)).

(** Classes and shorthands *)
Definition chr (c : ascii) : ascii -> bool := Ascii.eqb c.
Definition lit (c : ascii) : regex := Cls (chr c).
Definition exactly (p : ascii -> bool) (n : nat) : regex := Rep p n (Some n).
Definition between (p : ascii -> bool) (lo hi : nat) : regex :=
  Rep p lo (Some hi).
Definition star (p : ascii -> bool) : regex := Rep p 0 None.
Definition opt (p : ascii -> bool) : regex := Rep p 0 (Some 1).
(** [.] without [DOTALL] *)
Definition dot (c : ascii) : bool := negb (Ascii.eqb c "010"%char).

End Re.

(* ================================================================== *)
(** * process_bank_statement.py *)
(* ================================================================== *)

Import Py.

Local Open Scope string_scope.

(** ** utils & constants *)

Definition byte (n : N) : ascii := ascii_of_N n.

(** [re.compile(r"[₹$€£]\s?")]: the rupee sign is E2 82 B9, the euro sign
    E2 82 AC and the pound sign C2 A3 in UTF-8. *)
Definition CURRENCY_PATTERN : Re.regex :=
  Re.Seq
    (Re.Alt (Re.Seq (Re.lit (byte 226)) (Re.Seq (Re.lit (byte 130)) (Re.lit (byte 185))))
    (Re.Alt (Re.lit "$"%char)
    (Re.Alt (Re.Seq (Re.lit (byte 226)) (Re.Seq (Re.lit (byte 130)) (Re.lit (byte 172))))
            (Re.Seq (Re.lit (byte 194)) (Re.lit (byte 163))))))
    (Re.opt is_space).

Definition numeric_char (c : ascii) : bool :=
  is_digit c || Ascii.eqb c "."%char || Ascii.eqb c "-"%char.

(** [re.compile(r"[^0-9.\-]")] *)
Definition NON_NUMERIC : Re.regex := Re.Cls (fun c => negb (numeric_char c)).

Definition date_sep (c : ascii) : bool :=
  Ascii.eqb c "-"%char || Ascii.eqb c "/"%char.

(** [(\d{4})[-/](\d{1,2})[-/](\d{1,2})|(?:(\d{1,2})[-/](\d{1,2})[-/](\d{4}))] *)
Definition DATE_GUESS : Re.regex :=
  Re.Alt
    (Re.Seq (Re.Grp 1 (Re.exactly is_digit 4))
    (Re.Seq (Re.Cls date_sep)
    (Re.Seq (Re.Grp 2 (Re.between is_digit 1 2))
    (Re.Seq (Re.Cls date_sep)
            (Re.Grp 3 (Re.between is_digit 1 2))))))
    (Re.Seq (Re.Grp 4 (Re.between is_digit 1 2))
    (Re.Seq (Re.Cls date_sep)
    (Re.Seq (Re.Grp 5 (Re.between is_digit 1 2))
    (Re.Seq (Re.Cls date_sep)
            (Re.Grp 6 (Re.exactly is_digit 4)))))).

(** The named groups of [TXN_LINE_RE] *)
Definition g_date : nat := 1.
Definition g_amt : nat := 2.

(** [(?P<date>\d{1,2}[-/]\d{1,2}[-/]\d{2,4}|\d{4}[-/]\d{1,2}[-/]\d{1,2})]
    [.{1,120}(?P<amt>[-]?\d[\d,]*\.?\d{0,2})] *)
Definition TXN_LINE_RE : Re.regex :=
  Re.Seq
    (Re.Grp g_date
       (Re.Alt
          (Re.Seq (Re.between is_digit 1 2)
          (Re.Seq (Re.Cls date_sep)
          (Re.Seq (Re.between is_digit 1 2)
          (Re.Seq (Re.Cls date_sep)
                  (Re.between is_digit 2 4)))))
          (Re.Seq (Re.exactly is_digit 4)
          (Re.Seq (Re.Cls date_sep)
          (Re.Seq (Re.between is_digit 1 2)
          (Re.Seq (Re.Cls date_sep)
                  (Re.between is_digit 1 2)))))))
    (Re.Seq (Re.between Re.dot 1 120)
            (Re.Grp g_amt
               (Re.Seq (Re.opt (Re.chr "-"%char))
               (Re.Seq (Re.Cls is_digit)
               (Re.Seq (Re.star (fun c => is_digit c || Ascii.eqb c ","%char))
               (Re.Seq (Re.opt (Re.chr "."%char))
                       (Re.between is_digit 0 2))))))).

Notation "x <- c ;; k" := (bind c (fun x => k))
  (at level 61, c at next level, right associativity).

(** [@dataclass class Quality] *)
Inductive note : Type :=
| NoteStr (s : string)
| NotePair (tag preview : string).

Record Quality : Type := mk_quality {
  ocr_confidence : option float;
  page_rotation_warnings : bool;
  missing_sections : list string;
  duplicate_entries : bool;
  gemini_used : bool;
  gemini_error : option string;
  notes : list note
}.

(** [Quality()] *)
Definition new_quality : Quality :=
  mk_quality None false [] false false None [].

Definition set_duplicate_entries (b : bool) (q : Quality) : Quality :=
  mk_quality (ocr_confidence q) (page_rotation_warnings q)
             (missing_sections q) b (gemini_used q) (gemini_error q) (notes q).

Definition set_missing_sections (l : list string) (q : Quality) : Quality :=
  mk_quality (ocr_confidence q) (page_rotation_warnings q)
             l (duplicate_entries q) (gemini_used q) (gemini_error q) (notes q).

(** ** helpers *)

(** [def _to_float(x)] *)
Definition _to_float (x : pyval) : exc (option float) :=
  match x with
  | PNone => Ok None
  | _ =>
      let s := py_str x in
      let s := remove_char ","%char (Re.sub_empty CURRENCY_PATTERN s) in
      let s := Re.sub_empty NON_NUMERIC s in
      try_except (f <- float_of_str s ;; Ok (Some f)) (Ok None)
  end.

(** [int(m.group(i))] *)
Definition int_of_group (g : option string) : exc Z :=
  match g with
  | Some s => int_of_str s
  | None => Raise TypeError
  end.

Definition nonempty (g : option string) : bool :=
  match g with
  | Some s => negb (String.eqb s "")
  | None => false
  end.

(** [f"{int(y):04d}-{int(mm):02d}-{int(dd):02d}"] *)
Definition iso_date (y mm dd : option string) : exc string :=
  yi <- int_of_group y ;;
  mi <- int_of_group mm ;;
  di <- int_of_group dd ;;
  Ok (format_0d 4 yi ++ "-" ++ format_0d 2 mi ++ "-" ++ format_0d 2 di).

(** [def _normalize_date(s)]: [None], or a string.  [DATE_GUESS.search]
    wants a string and raises [TypeError] on anything else. *)
Definition _normalize_date (s : pyval) : exc (option string) :=
  if negb (truthy s) then Ok None
  else
    match s with
    | PStr str =>
        match Re.search DATE_GUESS str with
        | None => Ok (Some str)
        | Some m =>
            let '(y, mm, dd) :=
              if nonempty (Re.group m 1)
              then (Re.group m 1, Re.group m 2, Re.group m 3)
              else (Re.group m 6, Re.group m 5, Re.group m 4) in
            try_except (d <- iso_date y mm dd ;; Ok (Some d)) (Ok (Some str))
        end
    | _ => Raise TypeError
    end.

(** [digits[-4:]] *)
Definition last4 {A : Type} (l : list A) : list A :=
  skipn (List.length l - 4) l.

(** [def _mask_account(v)] *)
Definition _mask_account (v : pyval) : exc pyval :=
  if negb (truthy v) then Ok v
  else
    let digits := Re.findall (Re.Cls is_digit) (py_str v) in
    if (List.length digits <? 4)%nat then Ok v
    else Ok (PStr ("XXXX-XXXX-XXXX-" ++ join "" (last4 digits))).

(** ** Transactions as the pipeline builds them *)

Record Txn : Type := mk_txn {
  date : string;
  description : string;
  amount : float;
  balance : option float;
  category : pyval
}.

Definition py_of_option_float (o : option float) : pyval :=
  match o with
  | Some x => PFloat x
  | None => PNone
  end.

Definition py_of_option_str (o : option string) : pyval :=
  match o with
  | Some x => PStr x
  | None => PNone
  end.

(** The dictionary [{"date": ..., "description": ..., "amount": ...,
    "balance": ..., "category": ...}] *)
Definition py_of_txn (t : Txn) : pyval :=
  PDict [("date", PStr (date t));
         ("description", PStr (description t));
         ("amount", PFloat (amount t));
         ("balance", py_of_option_float (balance t));
         ("category", category t)].

(** ** local OCR helpers *)

(** The body of the loop of [_local_parse_text_for_txns]. *)
Definition candidate_of_match (m : Re.rmatch) : exc (option Txn) :=
  date <- _normalize_date (py_of_option_str (Re.group m g_date)) ;;
  amt <- _to_float (py_of_option_str (Re.group m g_amt)) ;;
  let desc := text (Re.m_text m) in
  match date, amt with
  | Some date, Some amt =>
      if negb (String.eqb date "")
      then Ok (Some (mk_txn date (strip desc) amt None PNone))
      else Ok None
  | _, _ => Ok None
  end.

Fixpoint collect_candidates (ms : list Re.rmatch) (txns : list Txn)
  : exc (list Txn) :=
  match ms with
  | [] => Ok txns
  | m :: rest =>
      c <- candidate_of_match m ;;
      match c with
      | Some t => collect_candidates rest (txns ++ [t])
      | None => collect_candidates rest txns
      end
  end.

(** [def _local_parse_text_for_txns(text)] *)
Definition _local_parse_text_for_txns (text : string) : exc (list Txn) :=
  collect_candidates (Re.finditer TXN_LINE_RE text) [].

(** ** reuse & postprocess *)

(** [d.get(k1) or d.get(k2)] *)
Definition get_either (d : pyval) (k1 k2 : string) : exc pyval :=
  a <- py_get d k1 ;;
  if truthy a then Ok a else py_get d k2.

(** [d.get(k1) or d.get(k2) or default] *)
Definition get_either_or (d : pyval) (k1 k2 : string) (default : pyval)
  : exc pyval :=
  a <- get_either d k1 k2 ;;
  Ok (py_or a default).

Definition canonical (acct summary txns : pyval) : pyval :=
  PDict [("Account Info", acct);
         ("Summary Values", summary);
         ("Transactions", txns)].

(** [{"Account Info": {}, "Summary Values": {}, "Transactions": []}] *)
Definition empty_shape : pyval := canonical (PDict []) (PDict []) (PList []).

(** [def _coerce_extracted(data)] *)
Definition _coerce_extracted (data : pyval) : exc pyval :=
  data <- (if is_dict data then
             has_fields <- py_in "fields" data ;;
             if has_fields then
               inner <- py_item data "fields" ;;
               Ok (if is_dict inner then inner else data)
             else Ok data
           else Ok data) ;;
  if is_dict data then
    acct <- get_either_or data "Account Info" "account_info" (PDict []) ;;
    summary <- get_either_or data "Summary Values" "summary_values" (PDict []) ;;
    txns <- get_either_or data "Transactions" "transactions" (PList []) ;;
    Ok (canonical acct summary txns)
  else if is_list data then
    if truthy data then
      first <- py_first data ;;
      if is_dict first
      then Ok (canonical (PDict []) (PDict []) data)
      else Ok empty_shape
    else Ok empty_shape
  else Ok empty_shape.

(** The uniqueness key [(date, desc.lower(), float(amt))]; membership in
    the set [seen] compares keys with [==]. *)
Definition Key : Type := (string * string * float)%type.

Definition key_eqb (a b : Key) : bool :=
  let '(d1, s1, x1) := a in
  let '(d2, s2, x2) := b in
  String.eqb d1 d2 && String.eqb s1 s2 && feqb x1 x2.


(** [key in seen] *)
Definition key_in (k : Key) (seen : list Key) : bool :=
  existsb (key_eqb k) seen.

(** What the loop of [_post_process_extracted] reads from one entry [t],
    before the validity test. *)
Record Entry : Type := mk_entry {
  e_date : option string;
  e_desc : string;
  e_amt : option float;
  e_bal : option float
}.

Definition normalize_entry (t : pyval) : exc Entry :=
  d <- (a <- get_either t "date" "Date" ;;
        if truthy a then Ok a else py_get t "date_str") ;;
  date <- _normalize_date d ;;
  ds <- get_either_or t "description" "Description" (PStr "") ;;
  let desc := strip (py_str ds) in
  a <- get_either t "amount" "Amount" ;;
  amt <- _to_float a ;;
  b <- get_either t "balance" "Balance" ;;
  bal <- _to_float b ;;
  Ok (mk_entry date desc amt bal).

(** [if date and desc and amt is not None] *)
Definition valid_entry (e : Entry) : option (string * string * float) :=
  match e_date e, e_amt e with
  | Some date, Some amt =>
      if negb (String.eqb date "") && negb (String.eqb (e_desc e) "")
      then Some (date, e_desc e, amt)
      else None
  | _, _ => None
  end.

(** [for t in raw_txns or []: ...] with the loop's three variables. *)
Fixpoint reconcile_loop (raw : list pyval) (txns : list Txn)
  (seen : list Key) (dup : bool) : exc (list Txn * list Key * bool) :=
  match raw with
  | [] => Ok (txns, seen, dup)
  | t :: rest =>
      if negb (is_dict t) then reconcile_loop rest txns seen dup
      else
        e <- normalize_entry t ;;
        match valid_entry e with
        | Some (date, desc, amt) =>
            let key := (date, lower desc, amt) in
            if key_in key seen then reconcile_loop rest txns seen true
            else
              cat <- py_get t "category" ;;
              reconcile_loop rest
                (txns ++ [mk_txn date desc amt (e_bal e) cat])
                (key :: seen) dup
        | None => reconcile_loop rest txns seen dup
        end
  end.

(** [list.sort(key=...)]: a stable sort that uses [<] on the keys only.
    The result of a stable sort is determined by the order, so insertion
    stands for the runtime's merge sort.  A comparison that raises ends
    the sort; [sort_or_pass] then keeps the list as it was (the runtime
    may leave it partly reordered, which the engine never observes: its
    keys are strings, and comparing them does not raise). *)
Section Sort.
Context {A K : Type}.
Variable key : A -> K.
Variable lt : K -> K -> exc bool.

Fixpoint insert_sorted (x : A) (l : list A) : exc (list A) :=
  match l with
  | [] => Ok [x]
  | y :: r =>
      b <- lt (key y) (key x) ;;
      if b then (r' <- insert_sorted x r ;; Ok (y :: r'))
      else Ok (x :: l)
  end.

Fixpoint list_sort (l : list A) : exc (list A) :=
  match l with
  | [] => Ok []
  | x :: r => r' <- list_sort r ;; insert_sorted x r'
  end.

(** [try: l.sort(key=...)  except Exception: pass] *)
Definition sort_or_pass (l : list A) : list A :=
  match list_sort l with
  | Ok l' => l'
  | Raise _ => l
  end.
End Sort.

(** [a < b] on two strings *)
Definition str_lt (a b : string) : exc bool := Ok (String.ltb a b).

Record AccountInfo : Type := mk_account {
  bank_name : pyval;
  account_holder_name : pyval;
  account_number : pyval;
  statement_month : pyval;
  account_type : pyval
}.

Record SummaryValues : Type := mk_summary {
  opening_balance : option float;
  closing_balance : option float;
  total_credits : option float;
  total_debits : option float;
  average_daily_balance : option float
}.

Record Fields : Type := mk_fields {
  account_info : AccountInfo;
  summary_values : SummaryValues;
  transactions : list Txn
}.

(** The [fields] dictionary, as Python holds it. *)
Definition py_of_fields (f : Fields) : pyval :=
  PDict
    [("Account Info",
      PDict [("Bank name", bank_name (account_info f));
             ("Account holder name", account_holder_name (account_info f));
             ("Account number", account_number (account_info f));
             ("Statement month", statement_month (account_info f));
             ("Account type", account_type (account_info f))]);
     ("Summary Values",
      PDict [("Opening balance",
              py_of_option_float (opening_balance (summary_values f)));
             ("Closing balance",
              py_of_option_float (closing_balance (summary_values f)));
             ("Total credits",
              py_of_option_float (total_credits (summary_values f)));
             ("Total debits",
              py_of_option_float (total_debits (summary_values f)));
             ("Average daily balance",
              py_of_option_float (average_daily_balance (summary_values f)))]);
     ("Transactions", PList (map py_of_txn (transactions f)))].

Definition build_account (acct : pyval) : exc AccountInfo :=
  bank <- get_either acct "Bank name" "bank_name" ;;
  holder <- get_either acct "Account holder name" "account_holder_name" ;;
  number <- (n <- get_either acct "Account number" "account_number" ;;
             _mask_account n) ;;
  month <- get_either acct "Statement month" "statement_month" ;;
  type <- get_either acct "Account type" "account_type" ;;
  Ok (mk_account bank holder number month type).

Definition summary_value (summary : pyval) (k1 k2 : string)
  : exc (option float) :=
  v <- get_either summary k1 k2 ;;
  _to_float v.

Definition build_summary (summary : pyval) : exc SummaryValues :=
  opening <- summary_value summary "Opening balance" "opening_balance" ;;
  closing <- summary_value summary "Closing balance" "closing_balance" ;;
  credits <- summary_value summary "Total credits" "total_credits" ;;
  debits <- summary_value summary "Total debits" "total_debits" ;;
  average <- summary_value summary "Average daily balance"
                           "average_daily_balance" ;;
  Ok (mk_summary opening closing credits debits average).

Definition missing_of (f : Fields) : list string :=
  (match transactions f with [] => ["transactions"] | _ => [] end)
  ++ (match opening_balance (summary_values f) with
      | None => ["opening_balance"] | Some _ => [] end)
  ++ (match closing_balance (summary_values f) with
      | None => ["closing_balance"] | Some _ => [] end).

(** Lines 383 to 390: coercion, the three sections, and the entries the
    loop will visit. *)
Definition coerced_sections (extracted : pyval)
  : exc (pyval * pyval * list pyval) :=
  extracted <- _coerce_extracted extracted ;;
  acct <- (a <- py_get extracted "Account Info" ;; Ok (py_or a (PDict []))) ;;
  summary <- (a <- py_get extracted "Summary Values" ;;
              Ok (py_or a (PDict []))) ;;
  raw_txns <- (a <- py_get extracted "Transactions" ;;
               Ok (py_or a (PList []))) ;;
  raw <- py_iter (py_or raw_txns (PList [])) ;;
  Ok (acct, summary, raw).

(** Lines 383 to 403: the sections, then the loop. *)
Definition reconcile_transactions (extracted : pyval)
  : exc (pyval * pyval * list Txn * bool) :=
  sections <- coerced_sections extracted ;;
  let '(acct, summary, raw) := sections in
  r <- reconcile_loop raw [] [] false ;;
  let '(txns, _, dup) := r in
  Ok (acct, summary, txns, dup).

(** Lines 409 to 425: the [fields] literal. *)
Definition build_fields (acct summary : pyval) (txns : list Txn)
  : exc Fields :=
  a <- build_account acct ;;
  sv <- build_summary summary ;;
  Ok (mk_fields a sv txns).

(** [def _post_process_extracted(extracted, quality)]: the result, or the
    exception, and the [quality] object as the call leaves it. *)
Definition _post_process_extracted (extracted : pyval) (quality : Quality)
  : exc Fields * Quality :=
  match reconcile_transactions extracted with
  | Raise e => (Raise e, quality)
  | Ok (acct, summary, txns, dup) =>
      let quality := set_duplicate_entries dup quality in
      let txns := sort_or_pass date str_lt txns in
      match build_fields acct summary txns with
      | Raise e => (Raise e, quality)
      | Ok fields =>
          (Ok fields, set_missing_sections (missing_of fields) quality)
      end
  end.

(** [x or 0.0] for an optional float *)
Definition or_zero (o : option float) : float :=
  match o with
  | Some x => if truthy (PFloat x) then x else S754_zero false
  | None => S754_zero false
  end.

(** [sum(1 for t in txns if word in t["description"].lower())] *)
Definition count_mentions (word : string) (txns : list Txn) : nat :=
  List.length (filter (fun t => contains word (lower (description t))) txns).

Definition str_of_nat (n : nat) : string := str_of_Z (Z.of_nat n).

Definition two : float := float_of_Z 2.

(** [round((float(opening) + float(closing)) / 2.0, 2)] *)
Definition average_balance (opening closing : float) : float :=
  round_nd 2 (fdiv (fadd opening closing) two).

Definition tip_average (avg : float) : string :=
  "Approx average balance ₹" ++ format_comma_2f avg ++ ".".
Definition tip_atm (n : nat) : string :=
  "ATM withdrawals: " ++ str_of_nat n ++ "×.".
Definition tip_upi (n : nat) : string :=
  "UPI transactions: " ++ str_of_nat n ++ "×.".
Definition tip_inflow : string :=
  "Net positive inflow; consider saving/investing surplus.".
Definition tip_none : string := "No strong insights from parsed data.".

(** [def _insights_local_fallback(fields)] *)
Definition _insights_local_fallback (fields : Fields) : list string :=
  let tips : list string := [] in
  let sv := summary_values fields in
  let txns := transactions fields in
  let opening := opening_balance sv in
  let closing := closing_balance sv in
  let credits := or_zero (total_credits sv) in
  let debits := or_zero (total_debits sv) in
  let tips :=
    match opening, closing with
    | Some o, Some c => (tips ++ [tip_average (average_balance o c)])%list
    | _, _ => tips
    end in
  let atm_cnt := count_mentions "atm" txns in
  let tips :=
    if negb (Nat.eqb atm_cnt 0) then (tips ++ [tip_atm atm_cnt])%list
    else tips in
  let upi_cnt := count_mentions "upi" txns in
  let tips :=
    if negb (Nat.eqb upi_cnt 0) then (tips ++ [tip_upi upi_cnt])%list
    else tips in
  let tips :=
    if truthy (PFloat credits) && truthy (PFloat debits) && fltb debits credits
    then (tips ++ [tip_inflow])%list
    else tips in
  match tips with
  | [] => [tip_none]
  | _ => tips
  end.

(** [def _mock_output()] *)
Definition _mock_output : pyval :=
  PDict
    [("fields",
      PDict
        [("Account Info",
          PDict [("Bank name", PStr "HDFC Bank");
                 ("Account holder name", PStr "Test User");
                 ("Account number", PStr "XXXX-XXXX-XXXX-7890");
                 ("Statement month", PStr "October 2025");
                 ("Account type", PStr "Savings")]);
         ("Summary Values",
          PDict [("Opening balance", PFloat (float_of_Z 15000));
                 ("Closing balance", PFloat (float_of_Z 17500));
                 ("Total credits", PFloat (float_of_Z 12000));
                 ("Total debits", PFloat (float_of_Z 9500));
                 ("Average daily balance", PFloat (float_of_Z 16200))]);
         ("Transactions",
          PList
            [PDict [("date", PStr "2025-10-01");
                    ("description", PStr "Salary Credit");
                    ("amount", PFloat (float_of_Z 25000));
                    ("balance", PFloat (float_of_Z 40000));
                    ("category", PStr "Salary")];
             PDict [("date", PStr "2025-10-05");
                    ("description", PStr "ATM WITHDRAWAL");
                    ("amount", PFloat (float_of_Z (-2000)));
                    ("balance", PFloat (float_of_Z 38000));
                    ("category", PStr "ATM Cash")]])]);
     ("insights",
      PList [PStr "Account maintained > ₹10,000 average balance during October."]);
     ("quality", PDict [])].

(** The keys of [dataclasses.asdict(quality)] *)
Definition quality_keys : list string :=
  ["ocr_confidence"; "page_rotation_warnings"; "missing_sections";
   "duplicate_entries"; "gemini_used"; "gemini_error"; "notes"].

(** ** Main pipeline *)

Section Pipeline.

(** [os.path.exists] on the file system the call runs in. *)
Variable path_exists : string -> bool.

(** Lines 241 to 365: the run with the producers (the remote model, the
    local recognition) on a path that exists. *)
Variable live_run : string -> exc pyval.

(** [def process_bank_statement(file_path, test_mode=False)] *)
Definition process_bank_statement (file_path : string) (test_mode : bool)
  : exc pyval :=
  if negb (path_exists file_path) then Raise (FileNotFoundError file_path)
  else if test_mode then Ok _mock_output
  else live_run file_path.

End Pipeline.

(* ================================================================== *)
(** * process_bank_statement.py: the Gemini helpers *)
(* ================================================================== *)

(** [prefs = ["flash", "pro", "vision", "2.5", "1.5", "2.0"]] *)
Definition prefs : list string :=
  ["flash"; "pro"; "vision"; "2.5"; "1.5"; "2.0"].

(** Lines 178 to 181, [for pref in prefs: for n in names: if pref in
    n.lower(): return n]; [None] when the loops end without a [return]. *)
Fixpoint first_preferred (prefs names : list string) : option string :=
  match prefs with
  | [] => None
  | pref :: rest =>
      match find (fun n => contains pref (lower n)) names with
      | Some n => Some n
      | None => first_preferred rest names
      end
  end.

(** [try: ... except Exception: return None] *)
Definition try_or_none {A : Type} (c : exc (option A)) : option A :=
  match c with
  | Ok r => r
  | Raise _ => None
  end.

(** [def _pick_gemini_model_from_list()].  The argument stands for the
    module variable [genai]: [None] when the library is not installed,
    otherwise what [genai.list_models()] does when called, the names of
    the models (each a string) or an exception. *)
Definition _pick_gemini_model_from_list (genai : option (exc (list string)))
  : option string :=
  match genai with
  | None => None
  | Some list_models =>
      try_or_none
        (names <- list_models ;;
         match first_preferred prefs names with
         | Some n => Ok (Some n)
         | None => Ok (match names with n :: _ => Some n | [] => None end)
         end)
  end.

(** ** [CODE_BLOCK]

    [re.compile(r"```(?:json)?\s*([\s\S]*?)\s*```", re.I)].  The pattern
    has two constructs that [Re.regex] does not: an optional word and a
    lazy repetition.  Its matcher is written out in the style of [Re.mt],
    each construct with the rest of the pattern as its continuation. *)

Definition fence : list ascii := ["`"; "`"; "`"]%char.
Definition json_word : list ascii := ["j"; "s"; "o"; "n"]%char.

(** A literal, its letters in either case. *)
Fixpoint lit_i {A : Type} (w s : list ascii) (k : list ascii -> option A)
  : option A :=
  match w with
  | [] => k s
  | a :: w' =>
      match s with
      | c :: s' =>
          if Ascii.eqb (lower_char c) (lower_char a) then lit_i w' s' k
          else None
      | [] => None
      end
  end.

(** [(?:w)?]: with the word first, then without. *)
Definition opt_i {A : Type} (w s : list ascii) (k : list ascii -> option A)
  : option A :=
  match lit_i w s k with
  | Some x => Some x
  | None => k s
  end.

(** [[\s\S]*?]: as few characters as the rest of the pattern allows. *)
Fixpoint lazy_any {A : Type} (s : list ascii) (k : list ascii -> option A)
  : option A :=
  match k s with
  | Some x => Some x
  | None =>
      match s with
      | [] => None
      | _ :: s' => lazy_any s' k
      end
  end.

(** A match at the head of [s]: its group 1. *)
Definition code_block_at (s : list ascii) : option (list ascii) :=
  lit_i fence s (fun s1 =>
  opt_i json_word s1 (fun s2 =>
  Re.rep is_space 0 None s2 (fun s3 =>
  lazy_any s3 (fun s4 =>
  Re.rep is_space 0 None s4 (fun s5 =>
  lit_i fence s5 (fun _ => Some (Re.consumed s3 s4))))))).

Fixpoint code_block_from (s : list ascii) : option (list ascii) :=
  match code_block_at s with
  | Some g => Some g
  | None =>
      match s with
      | [] => None
      | _ :: s' => code_block_from s'
      end
  end.

(** [m = CODE_BLOCK.search(text)], then [m.group(1)] *)
Definition CODE_BLOCK_group1 (text : string) : option string :=
  option_map Py.text (code_block_from (chars text)).

(** [s.find(c)] and [s.rfind(c)] for a character: [None] stands for -1. *)
Fixpoint find_char (c : ascii) (s : list ascii) : option nat :=
  match s with
  | [] => None
  | a :: r =>
      if Ascii.eqb a c then Some 0%nat else option_map S (find_char c r)
  end.

Fixpoint rfind_char (c : ascii) (s : list ascii) : option nat :=
  match s with
  | [] => None
  | a :: r =>
      match rfind_char c r with
      | Some i => Some (S i)
      | None => if Ascii.eqb a c then Some 0%nat else None
      end
  end.

(** [s[start:stop]] *)
Definition slice (s : list ascii) (start stop : nat) : list ascii :=
  firstn (stop - start) (skipn start s).

(** Lines 198 to 200: [candidate[start:end+1]] when both braces are there
    and [end > start]. *)
Definition json_span (candidate : string) : option string :=
  match find_char "{"%char (chars candidate),
        rfind_char "}"%char (chars candidate) with
  | Some start, Some stop =>
      if (start <? stop)%nat
      then Some (Py.text (slice (chars candidate) start (stop + 1)))
      else None
  | _, _ => None
  end.

(** [def _extract_json_from_text(text)].  [json_loads] is [json.loads]:
    the value of a JSON text, or an exception.  The function returns
    what [json.loads] returned, whatever its type, or [None]. *)
Definition _extract_json_from_text (json_loads : string -> exc pyval)
  (text : string) : pyval :=
  if String.eqb text "" then PNone
  else
    let candidate :=
      match CODE_BLOCK_group1 text with
      | Some g => g
      | None => text
      end in
    match json_loads candidate with
    | Ok v => v
    | Raise _ =>
        match json_span candidate with
        | Some span =>
            match json_loads span with
            | Ok v => v
            | Raise _ => PNone
            end
        | None => PNone
        end
    end.

(* ================================================================== *)
(** * process_bank_statement.py: the live run, lines 241 to 365 *)
(* ================================================================== *)

(** What one call of [process_bank_statement] observes of its
    surroundings, for its [file_path]: the environment, the optional
    libraries, the remote model, the file and the recognition of its
    text.  Each entry is the outcome of the lines named; where these can
    raise, the outcome is a value or the text [str(e)] of the
    exception. *)
Record World : Type := mk_world {
  (** [os.getenv("GEMINI_API_KEY") or os.getenv("GOOGLE_API_KEY")] *)
  api_key : option string;
  (** [os.getenv("GEMINI_MODEL")] and [os.getenv("GEMINI_DEFAULT_MODEL")] *)
  model_override : option string;
  default_model : option string;
  (** The module variable [genai], as [_pick_gemini_model_from_list]
      takes it. *)
  genai : option (exc (list string));
  (** [genai.configure(api_key=api_key)], line 256: the text of the
      exception when it raises. *)
  configure_failure : option string;
  (** Lines 276 to 292 for a model name: [(ok, resp_text)]. *)
  extraction_call : string -> bool * string;
  (** [json.loads] *)
  json_loads : string -> exc pyval;
  (** [Path(file_path).suffix.lower()] *)
  suffix : string;
  (** [Image and pytesseract], and [fitz] *)
  ocr_installed : bool;
  fitz_installed : bool;
  (** Lines 317 to 319, and line 322: the text recognised, or the text
      of the exception. *)
  image_text : string + string;
  pdf_text : string + string;
  (** Line 327: [None] when reading the file raises. *)
  file_text : option string;
  (** Lines 343 to 348 for a model name and the fields:
      [(ok, resp_text)], or the text of an exception raised there. *)
  insight_call : string -> Fields -> (bool * string) + string;
  (** Line 357, the lines of [resp_text] without their bullets: a
      function of [resp_text] alone (its line boundaries and whitespace
      follow the Unicode tables). *)
  bullet_lines : string -> list string
}.





(** Truth of a value of the environment, and of a module variable. *)
Definition env_truthy (o : option string) : bool :=
  match o with
  | Some s => negb (String.eqb s "")
  | None => false
  end.

Definition installed {A : Type} (o : option A) : bool :=
  match o with
  | Some _ => true
  | None => false
  end.


(** Lines 261 to 265 *)
Definition model_name (w : World) : string :=
  let model_name := model_override w in
  let model_name :=
    if negb (env_truthy model_name) && installed (genai w)
    then _pick_gemini_model_from_list (genai w)
    else model_name in
  if negb (env_truthy model_name)
  then (if env_truthy (default_model w)
        then match default_model w with Some d => d | None => "" end
        else "gemini-2.0-flash")
  else match model_name with Some n => n | None => "" end.


(** [s[:n]] on the UTF-8 text of a string: its first [n] code points.  A
    byte [10xxxxxx] continues the code point before it. *)
Definition continues (c : ascii) : bool :=
  (128 <=? code c)%N && (code c <? 192)%N.

Fixpoint take_points (n : nat) (cs : list ascii) : list ascii :=
  match cs with
  | [] => []
  | c :: r =>
      if continues c then c :: take_points n r
      else match n with
           | O => []
           | S k => c :: take_points k r
           end
  end.

(** [(resp_text[:200] + "...") if resp_text else ""] *)
Definition preview (resp_text : string) : string :=
  if negb (String.eqb resp_text "")
  then Py.text (take_points 200 (chars resp_text)) ++ "..."
  else "".





(** The entries of a dictionary. *)
Definition entries_of (v : pyval) : list (string * pyval) :=
  match v with PDict d => d | _ => [] end.

(** [isinstance(x, (str, int, float))]; a [bool] is an [int]. *)
Definition is_scalar (x : pyval) : bool :=
  match x with
  | PStr _ | PInt _ | PFloat _ | PBool _ => true
  | _ => false
  end.

(** The code points of a UTF-8 text, each as a string: a byte
    [10xxxxxx] belongs to the code point before it. *)
Fixpoint code_points (cs : list ascii) : list string :=
  match cs with
  | [] => []
  | c :: r =>
      match r with
      | c' :: _ =>
          if continues c'
          then match code_points r with
               | p :: ps => String c p :: ps
               | [] => [String c ""]
               end
          else String c "" :: code_points r
      | [] => [String c ""]
      end
  end.

(** [for x in v], the characters of a string being its code points. *)
Definition iter_values (v : pyval) : exc (list pyval) :=
  match v with
  | PStr s => Ok (map PStr (code_points (chars s)))
  | _ => py_iter v
  end.

(** The text of the [TypeError] of [for x in v]. *)
Definition type_name (v : pyval) : string :=
  match v with
  | PNone => "NoneType"
  | PBool _ => "bool"
  | PInt _ => "int"
  | PFloat _ => "float"
  | PStr _ => "str"
  | PList _ => "list"
  | PDict _ => "dict"
  end.

Definition not_iterable (v : pyval) : string :=
  "'" ++ type_name v ++ "' object is not iterable".

(** Lines 349 to 357: the insights read from the answer, or the text of
    the exception that reaches line 358. *)
Definition insights_of_answer (w : World) (answer : bool * string)
  : list string + string :=
  let '(ok, resp_text) := answer in
  if ok then
    let parsed := _extract_json_from_text (json_loads w) resp_text in
    if is_dict parsed
       && match lookup "insights" (entries_of parsed) with
          | Some _ => true
          | None => false
          end
    then
      let items := dict_get (entries_of parsed) "insights" in
      match iter_values items with
      | Ok xs => inl (map py_str (filter is_scalar xs))
      | Raise _ => inr (not_iterable items)
      end
    else if is_list parsed then
      match parsed with
      | PList xs => inl (map py_str xs)
      | _ => inl []
      end
    else inl (bullet_lines w resp_text)
  else inl [].





(* ================================================================== *)
(** * Specification-side definitions *)
(* ================================================================== *)

(** The valid entries of a raw list, in input order, each as the
    transaction the loop would append for it. *)
Definition candidate (t : pyval) : exc (option Txn) :=
  if negb (is_dict t) then Ok None
  else
    e <- normalize_entry t ;;
    match valid_entry e with
    | Some (date, desc, amt) =>
        cat <- py_get t "category" ;;
        Ok (Some (mk_txn date desc amt (e_bal e) cat))
    | None => Ok None
    end.















Definition nonzero (x : float) : bool :=
  match x with S754_zero _ => false | _ => true end.






(** ** Concrete payloads *)

(** Scenario A of the specification. *)
Definition scenario_A : pyval :=
  PDict
    [("Transactions",
      PList
        [PDict [("date", PStr "2025-10-05");
                ("description", PStr "ATM WITHDRAWAL");
                ("amount", PStr "-2,000.00")];
         PDict [("date", PStr "2025-10-05");
                ("description", PStr "atm withdrawal");
                ("amount", PFloat (float_of_Z (-2000)))]])].

(** A raw date that is a number, as JSON allows. *)
Definition payload_numeric_date : pyval :=
  PDict
    [("Transactions",
      PList [PDict [("date", PInt 20251005);
                    ("description", PStr "ATM WITHDRAWAL");
                    ("amount", PInt (-2000))]])].



(** A zero amount, written as text. *)
Definition payload_zero_amount : pyval :=
  PDict
    [("Transactions",
      PList [PDict [("date", PStr "2025-10-05");
                    ("description", PStr "Fee reversal");
                    ("amount", PStr "0.00")]])].



(** Scenario D of the specification. *)
Definition scenario_D : string := "2025-01-15 Grocery Store 250.75".

(** A candidate of the Heuristic Text Extractor comes from a match whose
    date and amount both normalized. *)
Definition from_normalized_match (text : string) (t : Txn) : Prop :=
  exists m,
    In m (Re.finditer TXN_LINE_RE text) /\
    _normalize_date (py_of_option_str (Re.group m g_date)) = Ok (Some (date t)) /\
    date t <> "" /\
    _to_float (py_of_option_str (Re.group m g_amt)) = Ok (Some (amount t)).



Definition no_account : AccountInfo := mk_account PNone PNone PNone PNone PNone.


(** Scenario B of the specification. *)
Definition fields_scenario_B : Fields :=
  mk_fields no_account
            (mk_summary (Some (float_of_Z 15000)) (Some (float_of_Z 17500))
                        None None None)
            [].


(** A file system with one file. *)
Definition one_file (name : string) : string -> bool := String.eqb name.

(* ================================================================== *)
(** * Further specification-side definitions *)
(* ================================================================== *)

(** ** What the engine accepts *)





(** ** Payloads and results *)



(** The payload of Scenario B of the specification. *)
Definition payload_scenario_B : pyval :=
  PDict [("Summary Values",
          PDict [("opening_balance", PInt 15000);
                 ("closing_balance", PInt 17500)])].

(** The ten digits. *)
Definition digit_chars : list ascii :=
  ["0"; "1"; "2"; "3"; "4"; "5"; "6"; "7"; "8"; "9"]%char.


Definition not_nan_or_absent (o : option float) : Prop :=
  match o with Some x => is_nan x = false | None => True end.




(** A text with two statement lines and one line that is not one. *)
Definition text_two_lines : string :=
  "01/02/2025 Coffee shop -4.55" ++ String "010" "" ++
  "no date on this line 12.00" ++ String "010" "" ++
  "2025-02-03 Salary 1,200.75".




(** ** The matches of [TXN_LINE_RE] *)







(** ** Numbers and shapes *)



(** A section of the coerced payload: the producer's value when it is
    truthy, the default otherwise. *)
Definition defaulted (v default : pyval) : Prop :=
  truthy v = true \/ v = default.


(** A wrapper around a payload, with keys of its own. *)
Definition payload_wrapped : pyval :=
  PDict [("insights", PList []);
         ("transactions", PList [PDict [("date", PStr "2025-01-01")]]);
         ("fields", scenario_A)].

(** ** Choosing a model *)

(** The place of the first keyword of [ps] that the name holds, in lower
    case; [None] when it holds none. *)
Fixpoint keyword_rank (ps : list string) (n : string) : option nat :=
  match ps with
  | [] => None
  | p :: rest =>
      if contains p (lower n) then Some 0
      else option_map S (keyword_rank rest n)
  end.

(** A smaller rank is better, and any rank is better than none. *)
Definition rank_le (a b : option nat) : Prop :=
  match a, b with
  | Some i, Some j => i <= j
  | Some _, None => True
  | None, Some _ => False
  | None, None => True
  end.

(** Names as the service lists them. *)
Definition listed_models : list string :=
  ["models/embedding-001"; "models/gemini-1.5-pro";
   "models/gemini-2.0-Flash"; "models/gemini-1.5-flash"].

(** ** Answers of the remote model *)

Definition backtick : ascii := "`"%char.

Definition no_backtick (l : list ascii) : bool :=
  forallb (fun c => negb (Ascii.eqb c backtick)) l.




(** [part] is a contiguous piece of [whole]. *)
Definition piece_of (part whole : string) : Prop :=
  exists a b, chars whole = (a ++ chars part ++ b)%list.

(** A stand-in for [json.loads] that reads one text. *)
Definition loads_only (good : string) (v : pyval) (s : string) : exc pyval :=
  if String.eqb s good then Ok v else Raise ValueError.

Definition answer_prose : string := "The result is {} as asked.".

(** ** The live run *)






(** A configured machine whose model answers ["answer"], which
    [json.loads] reads as [v]. *)
Definition world_answering (v : pyval) : World :=
  mk_world (Some "key") None None (Some (Ok listed_models)) None
           (fun _ => (true, "answer"))
           (loads_only "answer" v)
           ".png" false false (inr "not used") (inr "not used") None
           (fun _ _ => inr "not used") (fun _ => []).

(** The answer is a payload the engine rejects: a transaction dated by a
    number. *)
Definition world_rejected : World := world_answering payload_numeric_date.

(** ** Dates as written *)

(** [YYYY-MM-DD] for the digits of a year, a month and a day. *)
Definition iso_text (y1 y2 y3 y4 m1 m2 d1 d2 : ascii) : string :=
  text [y1; y2; y3; y4; "-"%char; m1; m2; "-"%char; d1; d2].

(* ================================================================== *)
(** * Lemmas *)
(* ================================================================== *)

Local Open Scope list_scope.

(** ** The error monad *)

Lemma bind_ok {A B : Type} (c : exc A) (k : A -> exc B) (b : B) :
  bind c k = Ok b -> exists a, c = Ok a /\ k a = Ok b.
Proof.
  destruct c as [a | e]; simpl; intro H; [eauto | discriminate].
Qed.

Ltac inv_bind H :=
  let a := fresh "v" in
  let Ha := fresh "Hv" in
  apply bind_ok in H; destruct H as (a & Ha & H).

(** ** Float equality *)






(** ** Correct rounding never yields NaN *)

Lemma iter_pos_invariant {A : Type} (P : A -> Prop) (f : A -> A) :
  (forall x, P x -> P (f x)) -> forall n x, P x -> P (iter_pos f n x).
Proof.
  intros Hf. induction n as [n IH | n IH |]; simpl; intros x Hx; auto.
Qed.

Lemma shr_1_nonneg mrs : (0 <= shr_m mrs)%Z -> (0 <= shr_m (shr_1 mrs))%Z.
Proof.
  destruct mrs as [m r s]; simpl.
  destruct m as [| p | p]; simpl; try lia; destruct p; simpl; lia.
Qed.

Lemma shr_nonneg mrs e n :
  (0 <= shr_m mrs)%Z -> (0 <= shr_m (fst (shr mrs e n)))%Z.
Proof.
  intros H. destruct n as [| p | p]; simpl; auto.
  apply iter_pos_invariant with (P := fun x => (0 <= shr_m x)%Z); auto.
  apply shr_1_nonneg.
Qed.

Lemma shr_record_of_loc_m m l : shr_m (shr_record_of_loc m l) = m.
Proof. destruct l as [| []]; reflexivity. Qed.

Lemma shr_fexp_nonneg m e l :
  (0 <= m)%Z -> (0 <= shr_m (fst (shr_fexp prec emax m e l)))%Z.
Proof.
  intros H. unfold shr_fexp. apply shr_nonneg.
  now rewrite shr_record_of_loc_m.
Qed.

Lemma round_nearest_even_nonneg m l :
  (0 <= m)%Z -> (0 <= round_nearest_even m l)%Z.
Proof.
  intros H. destruct l as [| []]; simpl; try lia.
  destruct (Z.even m); lia.
Qed.

Lemma binary_round_aux_not_nan s m e l :
  (0 <= m)%Z -> is_nan (binary_round_aux prec emax s m e l) = false.
Proof.
  intros H. unfold binary_round_aux.
  pose proof (shr_fexp_nonneg m e l H) as H1.
  destruct (shr_fexp prec emax m e l) as [mrs' e'] eqn:E1. simpl in H1.
  pose proof (round_nearest_even_nonneg (shr_m mrs') (loc_of_shr_record mrs') H1)
    as H2.
  pose proof (shr_fexp_nonneg _ e' loc_Exact H2) as H3.
  destruct (shr_fexp prec emax _ e' loc_Exact) as [mrs'' e''] eqn:E2.
  simpl in H3.
  destruct (shr_m mrs'') as [| p | p]; try reflexivity; try lia.
  destruct (e'' <=? emax - prec)%Z; reflexivity.
Qed.

Lemma float_of_decimal_not_nan neg digits scale :
  is_nan (float_of_decimal neg digits scale) = false.
Proof.
  unfold float_of_decimal.
  destruct digits as [| m | m]; try reflexivity.
  unfold SFdiv.
  set (d := Z.to_pos (10 ^ Z.of_nat scale)).
  destruct (SFdiv_core_binary prec emax (Z.pos m) 0 (Z.pos d) 0)
    as [[mz ez] lz] eqn:E.
  apply binary_round_aux_not_nan.
  unfold SFdiv_core_binary in E.
  set (m' := match _ with Z0 => _ | Zpos _ => _ | Zneg _ => _ end) in E.
  assert (Hm' : (0 <= m')%Z).
  { subst m'. destruct (_ - _ - _)%Z; try lia.
    apply Z.shiftl_nonneg. lia. }
  pose proof (Z_div_mod m' (Z.pos d) ltac:(lia)) as Hdm.
  destruct (Z.div_eucl m' (Z.pos d)) as [q r] eqn:Ed.
  inversion E; subst. nia.
Qed.

Lemma float_of_str_not_nan s x : float_of_str s = Ok x -> is_nan x = false.
Proof.
  unfold float_of_str.
  destruct (match chars s with
            | "-"%char :: r => (true, r)
            | _ => (false, chars s)
            end) as [neg body].
  destruct (span_digits body) as [ip rest].
  destruct rest as [| c fp].
  - destruct ip; [discriminate |].
    intro H; inversion H. apply float_of_decimal_not_nan.
  - destruct (Ascii.eqb_spec c "."%char) as [-> | Hc].
    + destruct (forallb is_digit fp && _); [| discriminate].
      intro H; inversion H. apply float_of_decimal_not_nan.
    + destruct c as [[] [] [] [] [] [] [] []]; try discriminate.
      now contradiction Hc.
Qed.

(** [_to_float] absorbs every failure of [float()]. *)
Lemma to_float_returns x : exists r, _to_float x = Ok r.
Proof.
  unfold _to_float.
  destruct x; try (eexists; reflexivity);
    match goal with
    | |- context [float_of_str ?s] => destruct (float_of_str s)
    end; simpl; eexists; reflexivity.
Qed.

Lemma to_float_not_nan x f : _to_float x = Ok (Some f) -> is_nan f = false.
Proof.
  unfold _to_float.
  destruct x; try discriminate;
    match goal with
    | |- context [float_of_str ?s] =>
        destruct (float_of_str s) as [y | e] eqn:E
    end; simpl; intro H; inversion H; subst;
    eapply float_of_str_not_nan; eauto.
Qed.

(** ** The matcher is sound for the declarative reading of a pattern *)


Lemma consumed_app (w s' : list ascii) : Re.consumed (w ++ s') s' = w.
Proof.
  unfold Re.consumed. rewrite length_app.
  replace (List.length w + List.length s' - List.length s')
    with (List.length w + 0) by lia.
  rewrite firstn_app_2. simpl. apply app_nil_r.
Qed.

Lemma rep_sound {A : Type} p (s : list ascii) :
  forall lo hi (k : list ascii -> option A) x,
    Re.rep p lo hi s k = Some x ->
    exists w s', s = w ++ s' /\ forallb p w = true /\ lo <= List.length w /\
                 match hi with Some h => List.length w <= h | None => True end /\
                 k s' = Some x.
Proof.
  assert (Hstop : forall lo hi (k : list ascii -> option A) x s0,
             match lo with O => k s0 | S _ => None end = Some x ->
             exists w s', s0 = w ++ s' /\ forallb p w = true /\
                          lo <= List.length w /\
                          match hi with
                          | Some h => List.length w <= h
                          | None => True
                          end /\ k s' = Some x).
  { intros lo hi k x s0 H. destruct lo; [| discriminate].
    exists [], s0. simpl. repeat split; auto.
    destruct hi; auto. lia. }
  induction s as [| c s' IH]; intros lo hi k x H; simpl in H.
  - eapply Hstop; eauto.
  - destruct (p c && Re.more hi) eqn:E; [| eapply Hstop; eauto].
    destruct (Re.rep p (pred lo) (option_map pred hi) s' k) as [y |] eqn:R;
      [| eapply Hstop; eauto].
    inversion H; subst y.
    apply IH in R. destruct R as (w & s'' & -> & Hp & Hlo & Hhi & Hk).
    apply andb_true_iff in E. destruct E as [Hc Hmore].
    exists (c :: w), s''. simpl. rewrite Hc, Hp. repeat split; auto.
    + lia.
    + destruct hi as [[| h] |]; simpl in *; try discriminate; auto. lia.
Qed.




(** ** Dates *)



Lemma chars_text l : chars (text l) = l.
Proof. apply list_ascii_of_string_of_list_ascii. Qed.

Lemma text_chars s : text (chars s) = s.
Proof. apply string_of_list_ascii_of_string. Qed.



Lemma int_of_digits w :
  forallb is_digit w = true -> w <> [] ->
  int_of_str (text w) = Ok (Z_of_digits w).
Proof.
  intros Hw Hne. unfold int_of_str. rewrite chars_text.
  destruct w as [| c w]; [contradiction |].
  assert (Hc : is_digit c = true)
    by (simpl in Hw; apply andb_true_iff in Hw; tauto).
  destruct (Ascii.eqb_spec c "-"%char) as [-> | Hminus]; [discriminate |].
  assert (E : match c :: w with
              | "-"%char :: r => (true, r)
              | _ => (false, c :: w)
              end = (false, c :: w)).
  { destruct c as [[] [] [] [] [] [] [] []]; try reflexivity.
    now contradiction Hminus. }
  rewrite E. now rewrite Hw.
Qed.







Lemma nonempty_text w : w <> [] -> nonempty (Some (text w)) = true.
Proof. destruct w; [contradiction | reflexivity]. Qed.





(** ** Sorting by date *)

Lemma ascii_compare_eq a b : Ascii.compare a b = Eq -> a = b.
Proof. apply Ascii.compare_eq_iff. Qed.












(** ** The deduplication loop *)












(** ** What [_to_float] hands to [float()] *)




Lemma filter_skip_prefix {A : Type} (p : A -> bool) n l :
  forallb (fun c => negb (p c)) (firstn n l) = true ->
  filter p l = filter p (skipn n l).
Proof.
  revert l. induction n as [| n IH]; intros [| c l]; simpl; auto.
  rewrite andb_true_iff. intros [Hc Hl].
  apply negb_true_iff in Hc. rewrite Hc. auto.
Qed.





(** ** What a valid entry looks like *)







(** ** The Heuristic Text Extractor *)

Lemma normalize_date_of_text_returns o :
  exists r, _normalize_date (py_of_option_str o) = Ok r.
Proof.
  destruct o as [s |]; [| eexists; reflexivity].
  unfold _normalize_date. simpl.
  destruct (negb (negb (String.eqb s ""))); [eexists; reflexivity |].
  destruct (Re.search DATE_GUESS s) as [m |]; [| eexists; reflexivity].
  destruct (if nonempty (Re.group m 1)
            then (Re.group m 1, Re.group m 2, Re.group m 3)
            else (Re.group m 6, Re.group m 5, Re.group m 4)) as [[y mm] dd].
  destruct (iso_date y mm dd); simpl; eexists; reflexivity.
Qed.

Lemma candidate_of_match_spec m :
  candidate_of_match m = Ok None \/
  exists t,
    candidate_of_match m = Ok (Some t) /\
    _normalize_date (py_of_option_str (Re.group m g_date)) = Ok (Some (date t)) /\
    date t <> "" /\
    _to_float (py_of_option_str (Re.group m g_amt)) = Ok (Some (amount t)).
Proof.
  unfold candidate_of_match.
  destruct (normalize_date_of_text_returns (Re.group m g_date)) as (d & ->).
  destruct (to_float_returns (py_of_option_str (Re.group m g_amt))) as (a & ->).
  simpl.
  destruct d as [d |]; [| now left].
  destruct a as [a |]; [| now left].
  destruct (String.eqb_spec d ""); simpl; [now left |].
  right. eexists. split; [reflexivity |]. simpl. auto.
Qed.

Lemma collect_candidates_spec text ms :
  incl ms (Re.finditer TXN_LINE_RE text) ->
  forall acc,
    Forall (from_normalized_match text) acc ->
    exists txns,
      collect_candidates ms acc = Ok txns /\
      Forall (from_normalized_match text) txns.
Proof.
  induction ms as [| m rest IH]; intros Hincl acc Hacc; simpl.
  - eauto.
  - assert (Hrest : incl rest (Re.finditer TXN_LINE_RE text))
      by (intros x Hx; apply Hincl; now right).
    destruct (candidate_of_match_spec m) as [-> | (t & -> & Hd & Hne & Ha)];
      simpl.
    + apply IH; auto.
    + apply IH; auto. apply Forall_app. split; auto.
      constructor; auto. exists m. repeat split; auto.
      apply Hincl. now left.
Qed.

(** ** The local insight fallback *)









(** ** Masking *)










(** ** The Shape Coercer *)

Lemma get_either_dict d k1 k2 :
  get_either (PDict d) k1 k2 = Ok (py_or (dict_get d k1) (dict_get d k2)).
Proof.
  unfold get_either, py_or. simpl. now destruct (truthy (dict_get d k1)).
Qed.

Lemma get_either_or_dict d k1 k2 default :
  get_either_or (PDict d) k1 k2 default
  = Ok (py_or (py_or (dict_get d k1) (dict_get d k2)) default).
Proof. unfold get_either_or. now rewrite get_either_dict. Qed.

(* ================================================================== *)
(** * The runtime model on known values *)
(* ================================================================== *)

(** [float("0.1")] is 0x1.999999999999ap-4. *)
Example float_of_str_tenth :
  float_of_str "0.1" = Ok (S754_finite false 7205759403792794 (-56)).
Proof. vm_compute. reflexivity. Qed.

(** Halfway cases go to the even neighbour: 2^53 + 1 reads as 2^53. *)
Example float_of_str_ties_to_even :
  float_of_str "9007199254740993" = Ok (S754_finite false 4503599627370496 1).
Proof. vm_compute. reflexivity. Qed.

Example float_of_str_forms :
  float_of_str ".5" = Ok (S754_finite false 4503599627370496 (-53)) /\
  float_of_str "5." = Ok (float_of_Z 5) /\
  float_of_str "-0" = Ok (S754_zero true) /\
  float_of_str "." = Raise ValueError /\
  float_of_str "" = Raise ValueError /\
  float_of_str "1-05" = Raise ValueError /\
  float_of_str "1.2.3" = Raise ValueError.
Proof. vm_compute. repeat split; reflexivity. Qed.

(** The smallest subnormal, and the underflow below half of it. *)
Example float_of_sci_underflow :
  float_of_sci false 3 (-324) = S754_finite false 1 (-1074) /\
  float_of_sci false 2 (-324) = S754_zero false /\
  float_of_sci false 1 400 = S754_infinity false.
Proof. vm_compute. repeat split; reflexivity. Qed.

Example float_repr_values :
  map float_repr
      [float_of_decimal false 1 1; float_of_Z (-2000); float_of_sci false 1 22;
       float_of_sci false 1 16; float_of_sci false 1 15;
       float_of_decimal false 1 4; float_of_decimal false 1 5;
       S754_finite false 4503599627370497 (-2); S754_finite false 1 (-1074);
       S754_finite false 9007199254740991 971; float_of_sci false 1 23;
       S754_zero true; S754_infinity false; S754_nan]
  = ["0.1"; "-2000.0"; "1e+22"; "1e+16"; "1000000000000000.0"; "0.0001";
     "1e-05"; "1125899906842624.2"; "5e-324"; "1.7976931348623157e+308";
     "1e+23"; "-0.0"; "inf"; "nan"].
Proof. vm_compute. reflexivity. Qed.

Example round_and_format_values :
  map (fun x => (float_repr (round_nd 2 x), format_comma_2f x))
      [float_of_decimal false 2675 3; float_of_decimal true 1 3;
       float_of_decimal true 1234567891 3; float_of_decimal false 125 3;
       float_of_decimal false 999995 3; float_of_sci false 1 23]
  = [("2.67", "2.67"); ("-0.0", "-0.00"); ("-1234567.89", "-1,234,567.89");
     ("0.12", "0.12"); ("1000.0", "1,000.00");
     ("1e+23", "99,999,999,999,999,991,611,392.00")].
Proof. vm_compute. reflexivity. Qed.

Example py_str_values :
  py_str (PList [PFloat (float_of_decimal false 15 1); PStr "x"; PNone;
                 PBool true; PDict [("a", PList [PInt 1])]])
  = "[1.5, 'x', None, True, {'a': [1]}]".
Proof. vm_compute. reflexivity. Qed.

(** A float whose [repr] has an exponent loses it in [_to_float]. *)
Example to_float_values :
  _to_float (PStr "₹ 1,234.50") = Ok (Some (float_of_decimal false 12345 1)) /\
  _to_float (PFloat (float_of_Z (-2000))) = Ok (Some (float_of_Z (-2000))) /\
  _to_float (PFloat (float_of_sci false 1 22)) = Ok (Some (float_of_Z 122)) /\
  _to_float (PStr "n/a") = Ok None /\
  _to_float (PBool true) = Ok None /\
  _to_float PNone = Ok None.
Proof. vm_compute. repeat split; reflexivity. Qed.

Example normalize_date_values :
  _normalize_date (PStr "5/10/2025") = Ok (Some "2025-10-05") /\
  _normalize_date (PStr "paid 2025-1-2 late") = Ok (Some "2025-01-02") /\
  _normalize_date (PStr "5 Oct") = Ok (Some "5 Oct") /\
  _normalize_date (PStr "") = Ok None /\
  _normalize_date PNone = Ok None /\
  _normalize_date (PInt 20251005) = Raise TypeError.
Proof. vm_compute. repeat split; reflexivity. Qed.

(** The match of [TXN_LINE_RE] on Scenario D, group by group. *)
Example txn_line_match :
  map (fun m => (Re.m_start m, text (Re.m_text m),
                 Re.group m g_date, Re.group m g_amt))
      (Re.finditer TXN_LINE_RE scenario_D)
  = [(0, "2025-01-15 Grocery Store 250.75", Some "2025-01-15", Some "5")].
Proof. vm_compute. reflexivity. Qed.

(** Scenario B of the specification. *)
Example scenario_B :
  (exists f q,
      _post_process_extracted
        (PDict [("Summary Values",
                 PDict [("opening_balance", PInt 15000);
                        ("closing_balance", PInt 17500)])])
        new_quality = (Ok f, q) /\
      missing_sections q = ["transactions"] /\
      summary_values f = summary_values fields_scenario_B) /\
  _insights_local_fallback fields_scenario_B
  = ["Approx average balance ₹16,250.00."].
Proof.
  split; [| vm_compute; reflexivity].
  eexists. eexists. split; [vm_compute; reflexivity |].
  split; reflexivity.
Qed.

(* ================================================================== *)
(** * The claims *)
(* ================================================================== *)



(** C2.  The engine raises [TypeError] as soon as the first entry of the
    transaction list is a mapping whose date is neither falsy nor a
    string (a JSON number, [true], a list, a mapping): [_normalize_date]
    hands the value to [DATE_GUESS.search] outside its [try], and nothing
    on the way up catches the exception.  The quality report is left
    untouched. *)
Theorem non_string_date_raises
        (v : pyval) (others : list (string * pyval)) (rest : list pyval)
        (q : Quality) :
  truthy v = true ->
  (forall s, v <> PStr s) ->
  _post_process_extracted
    (PDict [("Transactions", PList (PDict (("date", v) :: others) :: rest))]) q
  = (Raise TypeError, q).
Proof.
  intros Hv Hs.
  destruct v as [| b | z | x | s | l | d]; simpl in Hv.
  - discriminate.
  - subst b. reflexivity.
  - destruct z; [discriminate | reflexivity | reflexivity].
  - destruct x; try discriminate; reflexivity.
  - now contradiction (Hs s).
  - destruct l; [discriminate | reflexivity].
  - destruct d; [discriminate | reflexivity].
Qed.

Lemma non_string_date_raises_witness :
  _post_process_extracted payload_numeric_date new_quality
  = (Raise TypeError, new_quality).
Proof.
  refine (non_string_date_raises
            (PInt 20251005)
            [("description", PStr "ATM WITHDRAWAL"); ("amount", PInt (-2000))]
            [] new_quality _ _).
  - reflexivity.
  - intros s H. discriminate H.
Defined.




(** C4.  The engine keeps an entry whose amount is the text ["0.00"], as
    amount 0.0, and drops that same entry when it is fed its own output.
    It is so for every transaction of amount zero: read back from the
    engine's own dictionary it is not a valid entry, because
    [t.get("amount") or t.get("Amount")] takes the number 0.0 for a
    missing amount. *)
Theorem rerun_drops_zero_amount :
  (exists f1 q1 f2 q2,
      _post_process_extracted payload_zero_amount new_quality = (Ok f1, q1) /\
      transactions f1 =
        [mk_txn "2025-10-05" "Fee reversal" (S754_zero false) None PNone] /\
      _post_process_extracted (py_of_fields f1) q1 = (Ok f2, q2) /\
      transactions f2 = [])
  /\
  (forall t : Txn, nonzero (amount t) = false -> candidate (py_of_txn t) = Ok None).
Proof.
  split.
  - do 4 eexists.
    split; [vm_compute; reflexivity |].
    split; [reflexivity |].
    split; [vm_compute; reflexivity |].
    reflexivity.
  - intros [d s a b c] Ha. cbn [amount] in Ha.
    unfold candidate, py_of_txn. cbn [is_dict negb date description amount
                                      balance category].
    unfold normalize_entry.
    set (t := PDict [("date", PStr d); ("description", PStr s);
                     ("amount", PFloat a); ("balance", py_of_option_float b);
                     ("category", c)]).
    assert (Ed : (x <- get_either t "date" "Date" ;;
                  if truthy x then Ok x else py_get t "date_str")
                 = Ok (py_of_option_str
                         (if String.eqb d "" then None else Some d))).
    { unfold get_either. subst t. cbn.
      destruct (String.eqb d "") eqn:E; cbn; rewrite ?E; reflexivity. }
    rewrite Ed. cbn [bind].
    destruct (normalize_date_of_text_returns
                (if String.eqb d "" then None else Some d)) as (nd & End).
    rewrite End. cbn [bind].
    assert (Ea : get_either t "amount" "Amount" = Ok PNone).
    { unfold get_either. subst t. cbn.
      destruct a; try discriminate; reflexivity. }
    set (dsc := get_either_or _ "description" "Description" _).
    assert (Edsc : exists v, dsc = Ok v).
    { subst dsc t. rewrite get_either_or_dict. eauto. }
    destruct Edsc as (v & ->). cbn [bind].
    rewrite Ea. cbn [bind _to_float].
    set (bl := get_either _ "balance" "Balance").
    assert (Ebl : exists v, bl = Ok v).
    { subst bl t. rewrite get_either_dict. eauto. }
    destruct Ebl as (vb & ->). cbn [bind].
    destruct (to_float_returns vb) as (fb & ->). cbn [bind].
    unfold valid_entry. cbn [e_date e_amt].
    destruct nd; reflexivity.
Qed.

Lemma rerun_drops_zero_amount_witness :
  candidate (py_of_txn (mk_txn "2025-10-05" "Fee reversal" (S754_zero false)
                               None PNone))
  = Ok None.
Proof.
  refine (proj2 rerun_drops_zero_amount
                (mk_txn "2025-10-05" "Fee reversal" (S754_zero false) None PNone)
                _).
  reflexivity.
Defined.



(** C6.  On Scenario D the extractor yields one candidate, dated
    2025-01-15, whose amount is 5.0 and not 250.75: the greedy
    [.{1,120}] runs to the end of the line and gives back one character
    only, so the amount group captures the last digit.  The extractor
    returns on every text, and each candidate it emits comes from a match
    whose date and amount both normalized. *)
Theorem scenario_D_amount_is_last_digit :
  _local_parse_text_for_txns scenario_D
  = Ok [mk_txn "2025-01-15" "2025-01-15 Grocery Store 250.75"
               (float_of_Z 5) None PNone]
  /\ float_of_str "250.75" = Ok (float_of_decimal false 25075 2)
  /\ feqb (float_of_Z 5) (float_of_decimal false 25075 2) = false
  /\ forall text,
       exists txns,
         _local_parse_text_for_txns text = Ok txns /\
         Forall (from_normalized_match text) txns.
Proof.
  split; [vm_compute; reflexivity |].
  split; [vm_compute; reflexivity |].
  split; [vm_compute; reflexivity |].
  intro text. unfold _local_parse_text_for_txns.
  apply collect_candidates_spec; [apply incl_refl | constructor].
Qed.








(** C10.  In test mode [process_bank_statement] raises
    [FileNotFoundError] for a path that does not exist, because the
    existence check comes first; it returns the fixed mock record for a
    path that exists, and only then; and the mock record's [quality] is an
    empty mapping, with none of the fields of the quality report. *)
Theorem test_mode_checks_path_first
        (path_exists : string -> bool) (live_run : string -> exc pyval)
        (file_path : string) :
  (path_exists file_path = false ->
   process_bank_statement path_exists live_run file_path true
   = Raise (FileNotFoundError file_path)) /\
  (path_exists file_path = true ->
   process_bank_statement path_exists live_run file_path true
   = Ok _mock_output) /\
  (forall r,
      process_bank_statement path_exists live_run file_path true = Ok r ->
      path_exists file_path = true /\ r = _mock_output) /\
  py_get _mock_output "quality" = Ok (PDict []) /\
  Forall (fun k => py_in k (PDict []) = Ok false) quality_keys.
Proof.
  unfold process_bank_statement.
  destruct (path_exists file_path); cbn [negb].
  - split; [discriminate |]. split; [reflexivity |].
    split; [intros r H; inversion H; auto |].
    split; [reflexivity |].
    repeat constructor.
  - split; [reflexivity |]. split; [discriminate |].
    split; [intros r H; discriminate |].
    split; [reflexivity |].
    repeat constructor.
Qed.

Lemma test_mode_checks_path_first_witness :
  process_bank_statement (one_file "statement.pdf") (fun _ => Raise ValueError)
                         "missing.pdf" true
  = Raise (FileNotFoundError "missing.pdf")
  /\
  process_bank_statement (one_file "statement.pdf") (fun _ => Raise ValueError)
                         "statement.pdf" true
  = Ok _mock_output.
Proof.
  split.
  - refine (proj1 (test_mode_checks_path_first
                     (one_file "statement.pdf") (fun _ => Raise ValueError)
                     "missing.pdf") _).
    reflexivity.
  - refine (proj1 (proj2 (test_mode_checks_path_first
                     (one_file "statement.pdf") (fun _ => Raise ValueError)
                     "statement.pdf")) _).
    reflexivity.
Defined.

(* ================================================================== *)
(** * Further properties of the code *)
(* ================================================================== *)

(** Properties read off the source, function by function: the helpers
    ([_to_float], [_normalize_date], [_mask_account]), the Shape Coercer
    and the Reconciliation Engine, the Heuristic Text Extractor, the
    Gemini helpers, and the live run of [process_bank_statement].  The
    functions that only talk to the operating system or to a library
    ([_ensure_tesseract_cmd], [_image_to_text_bytes],
    [_extract_text_from_pdf], [_try_gemini_generate_once], [main]) appear
    through their outcomes, as entries of [World]. *)

Local Open Scope list_scope.

(** ** The Gemini helpers and the live run on known values *)

Example code_block_group1_tagged :
  CODE_BLOCK_group1 "```JSON {} ``` tail ``` x ```" = Some "{}".
Proof. vm_compute. reflexivity. Qed.

Example code_block_group1_none :
  CODE_BLOCK_group1 "a ``` b" = None.
Proof. vm_compute. reflexivity. Qed.

Example code_block_group1_empty :
  CODE_BLOCK_group1 "```json```" = Some "".
Proof. vm_compute. reflexivity. Qed.

Example code_block_group1_other_tag :
  CODE_BLOCK_group1 "```jsonl [1] ```" = Some "l [1]".
Proof. vm_compute. reflexivity. Qed.

Example code_block_group1_four_backticks :
  CODE_BLOCK_group1 "````json x````" = Some "`json x".
Proof. vm_compute. reflexivity. Qed.

Example json_span_outer : json_span "x{a}{b}y" = Some "{a}{b}".
Proof. vm_compute. reflexivity. Qed.

Example json_span_reversed : json_span "}{" = None.
Proof. vm_compute. reflexivity. Qed.

Example json_span_last : json_span "a}b{c}" = Some "{c}".
Proof. vm_compute. reflexivity. Qed.

Example code_points_rupee :
  code_points (chars "₹5é") = ["₹"; "5"; "é"]%string.
Proof. vm_compute. reflexivity. Qed.

Example take_points_rupee :
  text (take_points 2 (chars "₹5é")) = "₹5"%string.
Proof. vm_compute. reflexivity. Qed.

Example local_parse_two_lines :
  option_map (map (fun t => (date t, description t, amount t)))
             (match _local_parse_text_for_txns text_two_lines with
              | Ok l => Some l
              | Raise _ => None
              end)
  = Some [("2025-02-01", "01/02/2025 Coffee shop -4.55", float_of_Z 5);
          ("2025-02-03", "2025-02-03 Salary 1,200.75", float_of_Z 5)]%string.
Proof. vm_compute. reflexivity. Qed.

Example pick_model_first_flash :
  _pick_gemini_model_from_list (Some (Ok listed_models))
  = Some "models/gemini-2.0-Flash"%string.
Proof. vm_compute. reflexivity. Qed.

Example pick_model_listing_fails :
  _pick_gemini_model_from_list (Some (Raise ValueError)) = None.
Proof. reflexivity. Qed.

Example insights_of_answer_scalars :
  insights_of_answer
    (world_answering
       (PDict [("insights",
                PList [PStr "Save more"; PInt 3; PNone; PBool true; PList []])]))
    (true, "answer"%string)
  = inl ["Save more"; "3"; "True"]%string.
Proof. vm_compute. reflexivity. Qed.

Example insights_of_answer_not_iterable :
  insights_of_answer (world_answering (PDict [("insights", PInt 5)]))
                     (true, "answer"%string)
  = inr "'int' object is not iterable"%string.
Proof. vm_compute. reflexivity. Qed.

(** ** When the engine returns *)















(** ** [_normalize_date] on its own results *)

Lemma is_digit_enum c : is_digit c = true -> In c digit_chars.
Proof.
  destruct c as [[] [] [] [] [] [] [] []]; intro H;
    try discriminate H; simpl; tauto.
Qed.

Lemma format_4_round_trip :
  forallb (fun a => forallb (fun b => forallb (fun c => forallb (fun d =>
    String.eqb (format_0d 4 (Z_of_digits [a; b; c; d])) (text [a; b; c; d]))
    digit_chars) digit_chars) digit_chars) digit_chars = true.
Proof. vm_cast_no_check (eq_refl true). Qed.

Lemma format_2_round_trip :
  forallb (fun a => forallb (fun b =>
    String.eqb (format_0d 2 (Z_of_digits [a; b])) (text [a; b]))
    digit_chars) digit_chars = true.
Proof. vm_cast_no_check (eq_refl true). Qed.

Lemma format_0d_4_digits a b c d :
  is_digit a = true -> is_digit b = true -> is_digit c = true ->
  is_digit d = true ->
  format_0d 4 (Z_of_digits [a; b; c; d]) = text [a; b; c; d].
Proof.
  intros Ha Hb Hc Hd. apply is_digit_enum in Ha, Hb, Hc, Hd.
  pose proof format_4_round_trip as F.
  rewrite forallb_forall in F. specialize (F a Ha).
  rewrite forallb_forall in F. specialize (F b Hb).
  rewrite forallb_forall in F. specialize (F c Hc).
  rewrite forallb_forall in F. specialize (F d Hd).
  now apply String.eqb_eq in F.
Qed.

Lemma format_0d_2_digits a b :
  is_digit a = true -> is_digit b = true ->
  format_0d 2 (Z_of_digits [a; b]) = text [a; b].
Proof.
  intros Ha Hb. apply is_digit_enum in Ha, Hb.
  pose proof format_2_round_trip as F.
  rewrite forallb_forall in F. specialize (F a Ha).
  rewrite forallb_forall in F. specialize (F b Hb).
  now apply String.eqb_eq in F.
Qed.






(** ** Trimmed descriptions *)

Lemma lstrip_fixed c l :
  is_space c = false -> lstrip_chars (c :: l) = c :: l.
Proof. intro H. simpl. now rewrite H. Qed.

Lemma lstrip_head l :
  lstrip_chars l = [] \/
  exists c r, lstrip_chars l = c :: r /\ is_space c = false.
Proof.
  induction l as [| c l IH]; [now left |]. simpl.
  destruct (is_space c) eqn:E; [exact IH |]. right. eauto.
Qed.

Lemma lstrip_idempotent l : lstrip_chars (lstrip_chars l) = lstrip_chars l.
Proof.
  destruct (lstrip_head l) as [-> | (c & r & -> & H)]; [reflexivity |].
  now apply lstrip_fixed.
Qed.






Lemma to_float_not_nan_or_absent v o :
  _to_float v = Ok o -> not_nan_or_absent o.
Proof.
  destruct o as [x |]; simpl; auto. apply to_float_not_nan.
Qed.






(** ** The sections of the result *)

Lemma post_process_sections payload q f q' :
  _post_process_extracted payload q = (Ok f, q') ->
  exists acct summary raw dup,
    coerced_sections payload = Ok (acct, summary, raw) /\
    build_account acct = Ok (account_info f) /\
    build_summary summary = Ok (summary_values f) /\
    q' = set_missing_sections (missing_of f) (set_duplicate_entries dup q).
Proof.
  unfold _post_process_extracted, reconcile_transactions.
  destruct (coerced_sections payload) as [[[acct summary] raw] | e];
    cbn [bind]; [| discriminate].
  destruct (reconcile_loop raw [] [] false) as [[[txns seen] dup] | e];
    cbn [bind]; [| discriminate].
  destruct (build_fields acct summary _) as [fields | e] eqn:B; [| discriminate].
  intro H. inversion H; subst.
  unfold build_fields in B. inv_bind B. inv_bind B. inversion B; subst.
  exists acct, summary, raw, dup. auto.
Qed.






Lemma summary_value_not_nan summary k1 k2 o :
  summary_value summary k1 k2 = Ok o -> not_nan_or_absent o.
Proof.
  unfold summary_value. intro H. inv_bind H.
  eapply to_float_not_nan_or_absent; eauto.
Qed.

(** X5.  When the engine returns, the quality report lists as missing
    exactly what is missing from the result, in the order transactions,
    opening_balance, closing_balance; its [duplicate_entries] and
    [missing_sections] are the only fields the engine writes; and each of
    the five summary values is absent or a float other than NaN. *)
Theorem quality_report_and_summary payload q f q' :
  _post_process_extracted payload q = (Ok f, q') ->
  missing_sections q'
  = (if match transactions f with [] => true | _ => false end
     then ["transactions"] else [])
    ++ (match opening_balance (summary_values f) with
        | None => ["opening_balance"] | Some _ => [] end)
    ++ (match closing_balance (summary_values f) with
        | None => ["closing_balance"] | Some _ => [] end)
  /\ (ocr_confidence q' = ocr_confidence q /\
      page_rotation_warnings q' = page_rotation_warnings q /\
      gemini_used q' = gemini_used q /\
      gemini_error q' = gemini_error q /\
      notes q' = notes q)
  /\ (not_nan_or_absent (opening_balance (summary_values f)) /\
      not_nan_or_absent (closing_balance (summary_values f)) /\
      not_nan_or_absent (total_credits (summary_values f)) /\
      not_nan_or_absent (total_debits (summary_values f)) /\
      not_nan_or_absent (average_daily_balance (summary_values f))).
Proof.
  intro H. apply post_process_sections in H.
  destruct H as (acct & summary & raw & dup & _ & _ & Hs & ->).
  split; [| split].
  - cbn [missing_sections set_missing_sections]. unfold missing_of.
    now destruct (transactions f).
  - repeat split; reflexivity.
  - unfold build_summary in Hs.
    inv_bind Hs. inv_bind Hs. inv_bind Hs. inv_bind Hs. inv_bind Hs.
    inversion Hs; subst. cbn.
    repeat split; eapply summary_value_not_nan; eauto.
Qed.

Lemma quality_report_and_summary_witness :
  exists f q',
    _post_process_extracted payload_scenario_B new_quality = (Ok f, q') /\
    missing_sections q' = ["transactions"].
Proof.
  eexists. eexists. split; [vm_compute; reflexivity |].
  refine (eq_trans
            (proj1 (quality_report_and_summary
                      payload_scenario_B new_quality _ _ _)) _).
  - vm_compute. reflexivity.
  - reflexivity.
Defined.

(** ** The engine on transactions it built itself *)
















(** *** The local fallback *)







(** ** The engine on its own result *)









(** ** The matches of the Heuristic Text Extractor *)









Lemma digit_not_minus c : is_digit c = true -> c <> "-"%char.
Proof. destruct c as [[] [] [] [] [] [] [] []]; vm_compute; congruence. Qed.























(** ** What [_to_float] reads *)









(** ** The Shape Coercer, applied twice *)

Lemma defaulted_or a b default : defaulted (py_or (py_or a b) default) default.
Proof.
  unfold defaulted, py_or.
  destruct (truthy a) eqn:A; rewrite ?A; auto.
  destruct (truthy b) eqn:B; rewrite ?B; auto.
Qed.

Lemma or_defaulted v default :
  defaulted v default -> py_or (py_or v PNone) default = v.
Proof.
  unfold py_or. intros [T | ->].
  - rewrite T. now rewrite T.
  - destruct (truthy default) eqn:T; rewrite ?T; reflexivity.
Qed.

Lemma coerce_shape_defaulted data :
  exists acct summary txns,
    _coerce_extracted data = Ok (canonical acct summary txns) /\
    defaulted acct (PDict []) /\ defaulted summary (PDict []) /\
    defaulted txns (PList []).
Proof.
  assert (Empty : exists acct summary txns,
             Ok empty_shape = Ok (canonical acct summary txns) /\
             defaulted acct (PDict []) /\ defaulted summary (PDict []) /\
             defaulted txns (PList [])).
  { exists (PDict []), (PDict []), (PList []). unfold defaulted. auto. }
  assert (Sections : forall d, exists acct summary txns,
             (acct <- get_either_or (PDict d) "Account Info" "account_info"
                        (PDict []) ;;
              summary <- get_either_or (PDict d) "Summary Values"
                           "summary_values" (PDict []) ;;
              txns <- get_either_or (PDict d) "Transactions" "transactions"
                        (PList []) ;;
              Ok (canonical acct summary txns))
             = Ok (canonical acct summary txns) /\
             defaulted acct (PDict []) /\ defaulted summary (PDict []) /\
             defaulted txns (PList [])).
  { intro d. rewrite !get_either_or_dict. cbn [bind].
    do 3 eexists. split; [reflexivity |]. auto using defaulted_or. }
  unfold _coerce_extracted.
  destruct data as [| b | z | x | s | l | d]; cbn [is_dict is_list bind];
    try exact Empty.
  - destruct l as [| first rest]; cbn [truthy py_first bind]; [exact Empty |].
    destruct (is_dict first); [| exact Empty].
    exists (PDict []), (PDict []), (PList (first :: rest)).
    unfold defaulted. cbn [truthy]. auto.
  - cbn [py_in]. destruct (lookup "fields" d) as [inner |] eqn:L;
      cbn [bind py_item]; rewrite ?L; cbn [bind].
    + destruct inner; cbn [is_dict]; apply Sections.
    + apply Sections.
Qed.

Lemma coerce_canonical acct summary txns :
  defaulted acct (PDict []) -> defaulted summary (PDict []) ->
  defaulted txns (PList []) ->
  _coerce_extracted (canonical acct summary txns)
  = Ok (canonical acct summary txns).
Proof.
  intros Ha Hs Ht. unfold _coerce_extracted, canonical.
  cbn [is_dict bind]. change (py_in "fields" _) with (Ok false).
  cbn [bind]. rewrite !get_either_or_dict. cbn [bind].
  change (dict_get _ "Account Info") with acct.
  change (dict_get _ "account_info") with PNone.
  change (dict_get _ "Summary Values") with summary.
  change (dict_get _ "summary_values") with PNone.
  change (dict_get _ "Transactions") with txns.
  change (dict_get _ "transactions") with PNone.
  now rewrite !or_defaulted.
Qed.

Lemma post_process_of_coerced data c :
  _coerce_extracted data = Ok c ->
  _coerce_extracted c = Ok c ->
  forall q, _post_process_extracted c q = _post_process_extracted data q.
Proof.
  intros E1 E2 q.
  unfold _post_process_extracted, reconcile_transactions, coerced_sections.
  now rewrite E1, E2.
Qed.

(** X10.  [_coerce_extracted] is idempotent: it returns its own result
    unchanged; and the engine, which coerces first, gives the same
    outcome on a payload and on its coerced form. *)
Theorem coerce_is_idempotent (data : pyval) :
  exists c,
    _coerce_extracted data = Ok c /\
    _coerce_extracted c = Ok c /\
    forall q, _post_process_extracted c q = _post_process_extracted data q.
Proof.
  destruct (coerce_shape_defaulted data) as (a & s & t & E & Ha & Hs & Ht).
  exists (canonical a s t).
  assert (E2 := coerce_canonical a s t Ha Hs Ht).
  split; [exact E |]. split; [exact E2 |].
  now apply post_process_of_coerced.
Qed.

Lemma lookup_fields_inner d inner :
  lookup "fields" d = Some (PDict inner) ->
  _coerce_extracted (PDict d)
  = (acct <- get_either_or (PDict inner) "Account Info" "account_info"
               (PDict []) ;;
     summary <- get_either_or (PDict inner) "Summary Values" "summary_values"
                  (PDict []) ;;
     txns <- get_either_or (PDict inner) "Transactions" "transactions"
               (PList []) ;;
     Ok (canonical acct summary txns)).
Proof.
  intro L. unfold _coerce_extracted. cbn [is_dict py_in py_item bind].
  rewrite L. reflexivity.
Qed.

Lemma lookup_fields_plain inner :
  (forall x, lookup "fields" inner <> Some (PDict x)) ->
  _coerce_extracted (PDict inner)
  = (acct <- get_either_or (PDict inner) "Account Info" "account_info"
               (PDict []) ;;
     summary <- get_either_or (PDict inner) "Summary Values" "summary_values"
                  (PDict []) ;;
     txns <- get_either_or (PDict inner) "Transactions" "transactions"
               (PList []) ;;
     Ok (canonical acct summary txns)).
Proof.
  intro N. unfold _coerce_extracted. cbn [is_dict py_in py_item bind].
  destruct (lookup "fields" inner) as [v |] eqn:L; cbn [bind]; [| reflexivity].
  destruct v; try reflexivity. exfalso. eapply N. reflexivity.
Qed.

(** X11.  A wrapper [{"fields": {...}, ...}] is read as its ["fields"]
    mapping and the wrapper's other keys are ignored: when that mapping
    is not a wrapper of the same kind itself, the coercer and the engine
    give for the wrapper what they give for the mapping. *)
Theorem wrapper_is_read_as_its_fields d inner :
  lookup "fields" d = Some (PDict inner) ->
  (forall x, lookup "fields" inner <> Some (PDict x)) ->
  _coerce_extracted (PDict d) = _coerce_extracted (PDict inner) /\
  forall q, _post_process_extracted (PDict d) q
            = _post_process_extracted (PDict inner) q.
Proof.
  intros L N.
  assert (E : _coerce_extracted (PDict d) = _coerce_extracted (PDict inner))
    by (rewrite (lookup_fields_inner d inner L), (lookup_fields_plain inner N);
        reflexivity).
  split; [exact E |]. intro q.
  unfold _post_process_extracted, reconcile_transactions, coerced_sections.
  now rewrite E.
Qed.

Lemma wrapper_is_read_as_its_fields_witness :
  _coerce_extracted payload_wrapped = _coerce_extracted scenario_A /\
  _post_process_extracted payload_wrapped new_quality
  = _post_process_extracted scenario_A new_quality.
Proof.
  assert (L : lookup "fields" (entries_of payload_wrapped)
              = Some (PDict (entries_of scenario_A))) by reflexivity.
  assert (N : forall x, lookup "fields" (entries_of scenario_A)
                        <> Some (PDict x))
    by (intros x H; vm_compute in H; discriminate H).
  destruct (wrapper_is_read_as_its_fields
              (entries_of payload_wrapped) (entries_of scenario_A) L N)
    as [E P].
  split; [exact E | exact (P new_quality)].
Defined.

(** ** The choice of a model *)

Lemma find_some_split {A : Type} (p : A -> bool) l x :
  find p l = Some x ->
  p x = true /\
  exists pre post, l = pre ++ x :: post /\ forall y, In y pre -> p y = false.
Proof.
  induction l as [| a l IH]; cbn [find]; [discriminate |].
  destruct (p a) eqn:Pa.
  - intro H. inversion H; subst a. split; auto.
    exists [], l. split; [reflexivity |]. intros y [].
  - intro H. destruct (IH H) as (Px & pre & post & -> & Hpre).
    split; auto. exists (a :: pre), post. split; [reflexivity |].
    intros y [<- | I]; auto.
Qed.

Lemma find_none_all {A : Type} (p : A -> bool) l :
  find p l = None -> forall y, In y l -> p y = false.
Proof.
  induction l as [| a l IH]; cbn [find]; intros H y I; [contradiction |].
  destruct (p a) eqn:Pa; [discriminate |].
  destruct I as [<- | I]; auto.
Qed.

Lemma rank_le_S a b :
  rank_le a b -> rank_le (option_map S a) (option_map S b).
Proof. destruct a, b; cbn; auto. lia. Qed.

Lemma first_preferred_none ps names :
  first_preferred ps names = None ->
  forall n, In n names -> keyword_rank ps n = None.
Proof.
  induction ps as [| p ps IH]; cbn [first_preferred keyword_rank]; auto.
  destruct (find _ names) as [x |] eqn:F; [discriminate |].
  intros H n I. rewrite (find_none_all _ _ F n I).
  now rewrite (IH H n I).
Qed.

(** What the two loops return: the first name of the best rank. *)
Lemma first_preferred_some ps names n :
  first_preferred ps names = Some n ->
  keyword_rank ps n <> None /\
  exists pre post,
    names = pre ++ n :: post /\
    (forall n', In n' names -> rank_le (keyword_rank ps n) (keyword_rank ps n')) /\
    (forall n', In n' pre -> keyword_rank ps n' <> keyword_rank ps n).
Proof.
  induction ps as [| p ps IH]; cbn [first_preferred keyword_rank];
    [discriminate |].
  destruct (find _ names) as [x |] eqn:F.
  - intro H. inversion H; subst x. apply find_some_split in F.
    destruct F as (Pn & pre & post & -> & Hpre). rewrite Pn.
    split; [discriminate |]. exists pre, post. split; [reflexivity |]. split.
    + intros n' _. destruct (contains p (lower n')); cbn; [lia |].
      destruct (keyword_rank ps n'); cbn; [lia | exact I].
    + intros n' I. rewrite (Hpre n' I).
      destruct (keyword_rank ps n'); discriminate.
  - intro H. destruct (IH H) as (Hn & pre & post & -> & Hmin & Hfirst).
    assert (Fn := find_none_all _ _ F).
    rewrite (Fn n) by (apply in_or_app; right; now left).
    split; [destruct (keyword_rank ps n); [discriminate | contradiction] |].
    exists pre, post. split; [reflexivity |]. split.
    + intros n' I. rewrite (Fn n' I). apply rank_le_S. auto.
    + intros n' I. rewrite (Fn n') by (apply in_or_app; now left).
      intro E. apply (Hfirst n' I).
      destruct (keyword_rank ps n'), (keyword_rank ps n);
        cbn in E; congruence.
Qed.

(** X12.  [_pick_gemini_model_from_list] returns [None] exactly when the
    library is missing, the listing raises, or no model is listed.
    Otherwise it returns a listed name: the first, in list order, among
    those whose keyword comes first in [prefs]; a name with any keyword
    goes before every name with none, and the first name is taken when
    no name has a keyword. *)
Theorem pick_model_prefers_keywords (genai : option (exc (list string))) :
  (_pick_gemini_model_from_list genai = None <->
   genai = None \/ (exists e, genai = Some (Raise e)) \/ genai = Some (Ok []))
  /\
  (forall names n,
      genai = Some (Ok names) ->
      _pick_gemini_model_from_list genai = Some n ->
      exists pre post,
        names = pre ++ n :: post /\
        (forall n', In n' names ->
                    rank_le (keyword_rank prefs n) (keyword_rank prefs n')) /\
        (forall n', In n' pre -> keyword_rank prefs n' <> keyword_rank prefs n)).
Proof.
  split.
  - destruct genai as [[names | e] |]; cbn [_pick_gemini_model_from_list
                                            try_or_none bind].
    + destruct (first_preferred prefs names) as [n |] eqn:F; cbn [try_or_none].
      * split; [discriminate |].
        intros [H | [(e & H) | H]]; try discriminate.
        inversion H; subst names. discriminate F.
      * destruct names as [| n rest]; split; auto; try discriminate.
        intros [H | [(e & H) | H]]; discriminate.
    + split; eauto.
    + split; auto.
  - intros names n -> H. cbn [_pick_gemini_model_from_list bind] in H.
    destruct (first_preferred prefs names) as [x |] eqn:F;
      cbn [try_or_none] in H.
    + inversion H; subst x. apply first_preferred_some in F.
      destruct F as (_ & pre & post & E & Hmin & Hfirst). eauto.
    + destruct names as [| x rest]; [discriminate |].
      inversion H; subst x.
      assert (R := first_preferred_none _ _ F).
      exists [], rest. split; [reflexivity |]. split.
      * intros n' I. rewrite (R n) by now left. rewrite (R n' I). exact Logic.I.
      * intros n' [].
Qed.

Lemma pick_model_prefers_keywords_witness :
  _pick_gemini_model_from_list (Some (Ok listed_models))
  = Some "models/gemini-2.0-Flash" /\
  exists pre post,
    listed_models = pre ++ "models/gemini-2.0-Flash" :: post /\
    (forall n', In n' listed_models ->
                rank_le (keyword_rank prefs "models/gemini-2.0-Flash")
                        (keyword_rank prefs n')).
Proof.
  assert (H : _pick_gemini_model_from_list (Some (Ok listed_models))
              = Some "models/gemini-2.0-Flash") by (vm_compute; reflexivity).
  split; [exact H |].
  destruct (proj2 (pick_model_prefers_keywords (Some (Ok listed_models)))
              listed_models "models/gemini-2.0-Flash" eq_refl H)
    as (pre & post & E & Hmin & _).
  exists pre, post. auto.
Defined.

(** ** Reading the answer of the remote model *)

Lemma lower_backtick c :
  Ascii.eqb c backtick = false ->
  Ascii.eqb (lower_char c) (lower_char backtick) = false.
Proof. destruct c as [[] [] [] [] [] [] [] []]; vm_compute; congruence. Qed.



Lemma lit_i_fence_fails {A : Type} c s (k : list ascii -> option A) :
  Ascii.eqb c backtick = false -> lit_i fence (c :: s) k = None.
Proof.
  intro H. unfold fence. cbn [lit_i].
  change "`"%char with backtick. now rewrite (lower_backtick c H).
Qed.


Lemma code_block_at_no_fence c s :
  Ascii.eqb c backtick = false -> code_block_at (c :: s) = None.
Proof. intro H. unfold code_block_at. now apply lit_i_fence_fails. Qed.

Lemma code_block_from_skip pre s :
  no_backtick pre = true ->
  code_block_from (pre ++ s) = code_block_from s.
Proof.
  induction pre as [| c pre IH]; [reflexivity |].
  unfold no_backtick. cbn [forallb app]. intro H.
  apply andb_true_iff in H. destruct H as [Hc Hp].
  apply negb_true_iff in Hc.
  change ((c :: pre) ++ s) with (c :: (pre ++ s)).
  cbn [code_block_from]. rewrite (code_block_at_no_fence c _ Hc).
  now apply IH.
Qed.

Lemma code_block_from_none s :
  no_backtick s = true -> code_block_from s = None.
Proof.
  intro H. rewrite <- (app_nil_r s), (code_block_from_skip s [] H).
  reflexivity.
Qed.



















(** *** Whatever is returned was parsed *)

Lemma lit_i_sound {A : Type} w :
  forall s (k : list ascii -> option A) x,
    lit_i w s k = Some x -> exists w' s', s = w' ++ s' /\ k s' = Some x.
Proof.
  induction w as [| a w IH]; intros s k x H; cbn [lit_i] in H.
  - exists [], s. auto.
  - destruct s as [| c s]; [discriminate |].
    destruct (Ascii.eqb (lower_char c) (lower_char a)); [| discriminate].
    apply IH in H. destruct H as (w' & s' & -> & Hk).
    exists (c :: w'), s'. auto.
Qed.

Lemma opt_i_sound {A : Type} w s (k : list ascii -> option A) x :
  opt_i w s k = Some x -> exists w' s', s = w' ++ s' /\ k s' = Some x.
Proof.
  unfold opt_i. destruct (lit_i w s k) as [y |] eqn:L.
  - intro H. inversion H; subst y. eapply lit_i_sound; eauto.
  - intro H. exists [], s. auto.
Qed.

Lemma lazy_any_sound {A : Type} s :
  forall (k : list ascii -> option A) x,
    lazy_any s k = Some x -> exists w s', s = w ++ s' /\ k s' = Some x.
Proof.
  induction s as [| c s IH]; intros k x H; cbn [lazy_any] in H.
  - destruct (k []) eqn:K; [| discriminate]. inversion H; subst.
    exists [], []. auto.
  - destruct (k (c :: s)) eqn:K.
    + inversion H; subst. exists [], (c :: s). auto.
    + apply IH in H. destruct H as (w & s' & -> & Hk).
      exists (c :: w), s'. auto.
Qed.

Lemma code_block_at_piece s g :
  code_block_at s = Some g -> exists a b, s = a ++ g ++ b.
Proof.
  unfold code_block_at. intro H.
  apply lit_i_sound in H. destruct H as (w1 & s1 & -> & H).
  apply opt_i_sound in H. destruct H as (w2 & s2 & -> & H).
  apply rep_sound in H. destruct H as (w3 & s3 & -> & _ & _ & _ & H).
  apply lazy_any_sound in H. destruct H as (w4 & s4 & -> & H).
  apply rep_sound in H. destruct H as (w5 & s5 & -> & _ & _ & _ & H).
  apply lit_i_sound in H. destruct H as (w6 & s6 & -> & H).
  inversion H; subst g. rewrite consumed_app.
  exists (w1 ++ w2 ++ w3), (w5 ++ w6 ++ s6).
  now rewrite <- !app_assoc.
Qed.

Lemma code_block_from_piece s :
  forall g, code_block_from s = Some g -> exists a b, s = a ++ g ++ b.
Proof.
  induction s as [| c s IH]; intros g H; cbn [code_block_from] in H.
  - destruct (code_block_at []) eqn:E; [| discriminate].
    inversion H; subst. now apply code_block_at_piece.
  - destruct (code_block_at (c :: s)) eqn:E.
    + inversion H; subst. now apply code_block_at_piece.
    + apply IH in H. destruct H as (a & b & ->).
      exists (c :: a), b. reflexivity.
Qed.

Lemma piece_of_refl t : piece_of t t.
Proof. exists [], []. cbn [app]. now rewrite app_nil_r. Qed.

Lemma piece_of_trans a b c : piece_of a b -> piece_of b c -> piece_of a c.
Proof.
  intros (x & y & E1) (x' & y' & E2). exists (x' ++ x), (y ++ y').
  rewrite E2, E1. now rewrite <- !app_assoc.
Qed.

Lemma group1_piece t g : CODE_BLOCK_group1 t = Some g -> piece_of g t.
Proof.
  unfold CODE_BLOCK_group1.
  destruct (code_block_from (chars t)) as [w |] eqn:E; [| discriminate].
  intro H. inversion H; subst g. apply code_block_from_piece in E.
  destruct E as (a & b & E). exists a, b. now rewrite chars_text.
Qed.

Lemma json_span_piece c span : json_span c = Some span -> piece_of span c.
Proof.
  unfold json_span, slice.
  destruct (find_char "{" (chars c)) as [start |]; [| discriminate].
  destruct (rfind_char "}" (chars c)) as [stop |]; [| discriminate].
  destruct (start <? stop)%nat; [| discriminate].
  intro H. inversion H; subst span. rewrite <- (text_chars c) at 2.
  exists (firstn start (chars c)),
         (skipn (stop + 1 - start) (skipn start (chars c))).
  now rewrite !chars_text, firstn_skipn, firstn_skipn.
Qed.

(** X14.  [_extract_json_from_text] never parses anything but a piece of
    the text: whatever it returns other than [None] is what [json.loads]
    returned on a contiguous piece of the text (the whole text, group 1
    of [CODE_BLOCK], or the span from the first opening to the last
    closing brace of either).  The empty text gives [None], and a text
    without a backtick that [json.loads] accepts gives its value. *)
Theorem extract_json_returns_what_was_parsed
        (json_loads : string -> exc pyval) (t : string) :
  (_extract_json_from_text json_loads t <> PNone ->
   exists part,
     piece_of part t /\
     json_loads part = Ok (_extract_json_from_text json_loads t)) /\
  (t = "" -> _extract_json_from_text json_loads t = PNone) /\
  (forall v, t <> "" -> no_backtick (chars t) = true ->
             json_loads t = Ok v ->
             _extract_json_from_text json_loads t = v).
Proof.
  split; [| split].
  - unfold _extract_json_from_text.
    destruct (String.eqb t ""); [intro H; now contradiction H |].
    assert (Hc : piece_of (match CODE_BLOCK_group1 t with
                           | Some g => g
                           | None => t
                           end) t).
    { destruct (CODE_BLOCK_group1 t) as [g |] eqn:G.
      - now apply group1_piece.
      - apply piece_of_refl. }
    destruct (json_loads _) as [v | e] eqn:L1.
    + intros _. eauto.
    + destruct (json_span _) as [span |] eqn:S;
        [| intro H; now contradiction H].
      destruct (json_loads span) as [v | e'] eqn:L2;
        [| intro H; now contradiction H].
      intros _. exists span. split; [| exact L2].
      eapply piece_of_trans; [| exact Hc]. now apply json_span_piece.
  - intros ->. reflexivity.
  - intros v Ht Hb L. unfold _extract_json_from_text.
    destruct (String.eqb_spec t ""); [contradiction |].
    unfold CODE_BLOCK_group1. rewrite (code_block_from_none _ Hb).
    cbn [option_map]. now rewrite L.
Qed.

Lemma extract_json_returns_what_was_parsed_witness :
  _extract_json_from_text (loads_only "{}" (PDict [])) answer_prose = PDict [] /\
  exists part,
    piece_of part answer_prose /\ loads_only "{}" (PDict []) part = Ok (PDict []).
Proof.
  assert (E : _extract_json_from_text (loads_only "{}" (PDict [])) answer_prose
              = PDict []) by (vm_compute; reflexivity).
  split; [exact E |].
  destruct (proj1 (extract_json_returns_what_was_parsed
                     (loads_only "{}" (PDict [])) answer_prose))
    as (part & P & L).
  - rewrite E. discriminate.
  - exists part. split; [exact P |]. rewrite L. now rewrite E.
Defined.

(** ** The live run *)


























(** *** The model name *)

Lemma first_preferred_in ps names n :
  first_preferred ps names = Some n -> In n names.
Proof.
  intro H. apply first_preferred_some in H.
  destruct H as (_ & pre & post & -> & _).
  apply in_or_app. right. now left.
Qed.

Lemma pick_model_in_names g n :
  _pick_gemini_model_from_list g = Some n ->
  exists names, g = Some (Ok names) /\ In n names.
Proof.
  destruct g as [[names | e] |]; cbn [_pick_gemini_model_from_list bind
                                        try_or_none]; try discriminate.
  destruct (first_preferred prefs names) as [x |] eqn:F; cbn [try_or_none].
  - intro H. inversion H; subst x. exists names. split; [reflexivity |].
    eapply first_preferred_in; eauto.
  - destruct names as [| x rest]; [discriminate |].
    intro H. inversion H; subst x. exists (n :: rest).
    split; [reflexivity | now left].
Qed.

Lemma env_truthy_some o :
  env_truthy o = true -> exists s, o = Some s /\ s <> "".
Proof.
  destruct o as [s |]; cbn [env_truthy]; [| discriminate].
  destruct (String.eqb_spec s ""); [discriminate |]. eauto.
Qed.

(** X18.  The model name handed to the remote calls is never empty.  It
    is the value of [GEMINI_MODEL] when that is set and not empty; else
    a name [genai.list_models()] lists; else the value of
    [GEMINI_DEFAULT_MODEL]; else [gemini-2.0-flash]. *)
Theorem model_name_is_never_empty (w : World) :
  model_name w <> "" /\
  (env_truthy (model_override w) = true ->
   model_override w = Some (model_name w)) /\
  (env_truthy (model_override w) = false ->
   (exists names, genai w = Some (Ok names) /\ In (model_name w) names)
   \/ default_model w = Some (model_name w)
   \/ model_name w = "gemini-2.0-flash").
Proof.
  unfold model_name.
  destruct (env_truthy (model_override w)) eqn:O; cbn [negb andb].
  - rewrite O. cbn [negb].
    destruct (env_truthy_some _ O) as (s & -> & N).
    repeat split; auto. discriminate.
  - assert (Default :
              (if env_truthy (default_model w)
               then match default_model w with Some d => d | None => "" end
               else "gemini-2.0-flash") <> "" /\
              (default_model w
               = Some (if env_truthy (default_model w)
                       then match default_model w with
                            | Some d => d
                            | None => ""
                            end
                       else "gemini-2.0-flash")
               \/ (if env_truthy (default_model w)
                   then match default_model w with Some d => d | None => "" end
                   else "gemini-2.0-flash") = "gemini-2.0-flash")).
    { destruct (env_truthy (default_model w)) eqn:D.
      - destruct (env_truthy_some _ D) as (s & -> & N). auto.
      - split; [discriminate | auto]. }
    destruct (installed (genai w)).
    + destruct (env_truthy (_pick_gemini_model_from_list (genai w))) eqn:P;
        cbn [negb].
      * destruct (env_truthy_some _ P) as (s & E & N). rewrite E.
        split; [exact N |]. split; [discriminate |]. intros _. left.
        now apply pick_model_in_names.
      * split; [apply Default |]. split; [discriminate |].
        intros _. right. apply Default.
    + rewrite O. cbn [negb].
      split; [apply Default |]. split; [discriminate |].
      intros _. right. apply Default.
Qed.

Lemma model_name_is_never_empty_witness :
  model_name world_rejected = "models/gemini-2.0-Flash" /\
  exists names,
    genai world_rejected = Some (Ok names) /\
    In (model_name world_rejected) names.
Proof.
  split; [vm_compute; reflexivity |].
  destruct (proj2 (proj2 (model_name_is_never_empty world_rejected)) eq_refl)
    as [H | [H | H]].
  - exact H.
  - vm_compute in H. discriminate H.
  - vm_compute in H. discriminate H.
Defined.

(** *** The whole pipeline *)



(** ** Dates as written *)

Lemma date_sep_not_digit c : date_sep c = true -> is_digit c = false.
Proof. destruct c as [[] [] [] [] [] [] [] []]; vm_compute; congruence. Qed.

Lemma consumed_2 a b r : Re.consumed (a :: b :: r) r = [a; b].
Proof. apply (consumed_app [a; b] r). Qed.

Lemma consumed_4 a b c d r : Re.consumed (a :: b :: c :: d :: r) r = [a; b; c; d].
Proof. apply (consumed_app [a; b; c; d] r). Qed.

Lemma consumed_10 a b c d e f g h i j r :
  Re.consumed (a :: b :: c :: d :: e :: f :: g :: h :: i :: j :: r) r
  = [a; b; c; d; e; f; g; h; i; j].
Proof. apply (consumed_app [a; b; c; d; e; f; g; h; i; j] r). Qed.

Lemma rep_done {A : Type} p s (k : list ascii -> option A) :
  Re.rep p 0 (Some 0) s k = k s.
Proof. destruct s; cbn [Re.rep Re.more]; now rewrite ?andb_false_r. Qed.

Lemma search_day_first d1 d2 m1 m2 y1 y2 y3 y4 s1 s2 rest :
  forallb is_digit [d1; d2; m1; m2; y1; y2; y3; y4] = true ->
  date_sep s1 = true -> date_sep s2 = true ->
  Re.search DATE_GUESS
            (text ([d1; d2; s1; m1; m2; s2; y1; y2; y3; y4] ++ rest))
  = Some (Re.mk_match 0 [d1; d2; s1; m1; m2; s2; y1; y2; y3; y4]
                      [(6, [y1; y2; y3; y4]); (5, [m1; m2]); (4, [d1; d2])]).
Proof.
  cbn [forallb]. rewrite !andb_true_iff.
  intros (H1 & H2 & H3 & H4 & H5 & H6 & H7 & H8 & _) S1 S2.
  assert (N1 := date_sep_not_digit s1 S1).
  assert (N2 := date_sep_not_digit s2 S2).
  unfold Re.search. rewrite chars_text.
  unfold DATE_GUESS, Re.exactly, Re.between.
  cbn -[is_digit date_sep Re.consumed].
  repeat (rewrite ?H1, ?H2, ?H3, ?H4, ?H5, ?H6, ?H7, ?H8, ?N1, ?N2, ?S1, ?S2;
          cbn -[is_digit date_sep Re.consumed]).
  rewrite rep_done. cbn -[is_digit date_sep Re.consumed].
  now rewrite consumed_10, consumed_4, !consumed_2.
Qed.

Lemma search_year_first y1 y2 y3 y4 m1 m2 d1 d2 s1 s2 rest :
  forallb is_digit [d1; d2; m1; m2; y1; y2; y3; y4] = true ->
  date_sep s1 = true -> date_sep s2 = true ->
  Re.search DATE_GUESS
            (text ([y1; y2; y3; y4; s1; m1; m2; s2; d1; d2] ++ rest))
  = Some (Re.mk_match 0 [y1; y2; y3; y4; s1; m1; m2; s2; d1; d2]
                      [(3, [d1; d2]); (2, [m1; m2]); (1, [y1; y2; y3; y4])]).
Proof.
  cbn [forallb]. rewrite !andb_true_iff.
  intros (H1 & H2 & H3 & H4 & H5 & H6 & H7 & H8 & _) S1 S2.
  assert (N1 := date_sep_not_digit s1 S1).
  assert (N2 := date_sep_not_digit s2 S2).
  unfold Re.search. rewrite chars_text.
  unfold DATE_GUESS, Re.exactly, Re.between.
  cbn -[is_digit date_sep Re.consumed].
  repeat (rewrite ?H1, ?H2, ?H3, ?H4, ?H5, ?H6, ?H7, ?H8, ?N1, ?N2, ?S1, ?S2;
          cbn -[is_digit date_sep Re.consumed]).
  rewrite rep_done. cbn -[is_digit date_sep Re.consumed].
  now rewrite consumed_10, consumed_4, !consumed_2.
Qed.

Lemma iso_date_of_digits y1 y2 y3 y4 m1 m2 d1 d2 :
  forallb is_digit [d1; d2; m1; m2; y1; y2; y3; y4] = true ->
  iso_date (Some (text [y1; y2; y3; y4])) (Some (text [m1; m2]))
           (Some (text [d1; d2]))
  = Ok (iso_text y1 y2 y3 y4 m1 m2 d1 d2).
Proof.
  cbn [forallb]. rewrite !andb_true_iff.
  intros (H1 & H2 & H3 & H4 & H5 & H6 & H7 & H8 & _).
  unfold iso_date, int_of_group.
  rewrite !int_of_digits
    by (try discriminate; cbn [forallb];
        rewrite ?H1, ?H2, ?H3, ?H4, ?H5, ?H6, ?H7, ?H8; reflexivity).
  cbn [bind].
  rewrite format_0d_4_digits, !format_0d_2_digits by assumption.
  reflexivity.
Qed.

(** X20.  A date written with two digits for the day and for the month
    and four for the year is normalized to [YYYY-MM-DD] whether it is
    written year first or day first, whichever of [-] and [/] separates
    its parts, and whatever follows it in the text: the rest of the text
    (a time, a word) is dropped.  No calendar check is made: any digits
    are accepted as day and month. *)
Theorem normalize_date_reads_both_orders
        y1 y2 y3 y4 m1 m2 d1 d2 s1 s2 (rest : list ascii) :
  forallb is_digit [d1; d2; m1; m2; y1; y2; y3; y4] = true ->
  date_sep s1 = true -> date_sep s2 = true ->
  _normalize_date
    (PStr (text ([y1; y2; y3; y4; s1; m1; m2; s2; d1; d2] ++ rest)))
  = Ok (Some (iso_text y1 y2 y3 y4 m1 m2 d1 d2))
  /\
  _normalize_date
    (PStr (text ([d1; d2; s1; m1; m2; s2; y1; y2; y3; y4] ++ rest)))
  = Ok (Some (iso_text y1 y2 y3 y4 m1 m2 d1 d2)).
Proof.
  intros D S1 S2. split.
  - unfold _normalize_date.
    rewrite (search_year_first _ _ _ _ _ _ _ _ _ _ rest D S1 S2).
    cbn [truthy app text string_of_list_ascii String.eqb negb].
    unfold Re.group.
    cbn [Re.m_groups Re.group_chars Nat.eqb option_map].
    rewrite nonempty_text by discriminate.
    rewrite (iso_date_of_digits _ _ _ _ _ _ _ _ D). reflexivity.
  - unfold _normalize_date.
    rewrite (search_day_first _ _ _ _ _ _ _ _ _ _ rest D S1 S2).
    cbn [truthy app text string_of_list_ascii String.eqb negb].
    unfold Re.group.
    cbn [Re.m_groups Re.group_chars Nat.eqb option_map nonempty].
    rewrite (iso_date_of_digits _ _ _ _ _ _ _ _ D). reflexivity.
Qed.

Lemma normalize_date_reads_both_orders_witness :
  _normalize_date (PStr "2025/12-31 23:59") = Ok (Some "2025-12-31") /\
  _normalize_date (PStr "31/12-2025 23:59") = Ok (Some "2025-12-31").
Proof.
  exact (normalize_date_reads_both_orders
           "2" "0" "2" "5" "1" "2" "3" "1" "/" "-" (chars " 23:59")
           eq_refl eq_refl eq_refl).
Defined.

(** ** Counting transactions *)




